(** * homework_bot: a shallow embedding of [homework.py]

    The bot polls a homework-review API, turns the newest record into a
    message and forwards it to a Telegram chat unless it repeats the
    previous message.  This file embeds the functions of [homework.py]
    (check_tokens, send_message, get_api_answer, check_response,
    parse_status, main) as executable Rocq functions and proves the
    properties of the specification about them.

    Conventions of the embedding:
    - decoded JSON is the inductive [value]; a Python dict is an
      association list in insertion order, looked up by its first match;
    - a Python exception is a constructor of [exn]; code that may raise
      returns an [outcome];
    - the outside world (HTTP endpoint, clock, Telegram client) is an
      explicit environment record, and every call to the outside world
      or to [logging]/[time.sleep] is recorded as an [event] in a trace. *)

From Stdlib Require Import String Ascii List ZArith Bool Lia Floats.
From Stdlib Require Import DecimalString.
Import ListNotations.
Open Scope string_scope.
Open Scope Z_scope.

Set Warnings "-register-all".

(** ** Decoded JSON values *)

Module Json.

(** What [response.json()] can return. *)
Inductive value : Type :=
| VNone
| VBool (b : bool)
| VInt (n : Z)
| VFloat (x : float)
| VStr (s : string)
| VList (items : list value)
| VDict (fields : list (string * value)).

(** Python [type(v).__name__]. *)
Definition type_name (v : value) : string :=
  match v with
  | VNone => "NoneType"
  | VBool _ => "bool"
  | VInt _ => "int"
  | VFloat _ => "float"
  | VStr _ => "str"
  | VList _ => "list"
  | VDict _ => "dict"
  end.

(** Python truthiness, [bool(v)]. *)
Definition truthy (v : value) : bool :=
  match v with
  | VNone => false
  | VBool b => b
  | VInt n => negb (n =? 0)
  | VFloat x => negb (PrimFloat.eqb x 0%float)
  | VStr s => match s with EmptyString => false | _ => true end
  | VList l => match l with [] => false | _ => true end
  | VDict d => match d with [] => false | _ => true end
  end.

(** [x or y] on values. *)
Definition py_or (x y : value) : value := if truthy x then x else y.

(** [isinstance(v, dict)] and [isinstance(v, list)]. *)
Definition is_dict (v : value) : bool :=
  match v with VDict _ => true | _ => false end.

Definition is_list (v : value) : bool :=
  match v with VList _ => true | _ => false end.

(** [d.get(key)] on the fields of a dict. *)
Fixpoint lookup (key : string) (d : list (string * value)) : option value :=
  match d with
  | [] => None
  | (k, v) :: rest => if String.eqb key k then Some v else lookup key rest
  end.

Definition has_key (key : string) (d : list (string * value)) : bool :=
  match lookup key d with Some _ => true | None => false end.

(** [v == key] for a string [key]: only an equal string compares equal. *)
Definition eq_str (key : string) (v : value) : bool :=
  match v with VStr s => String.eqb key s | _ => false end.

(** [needle in haystack] on strings: substring test. *)
Fixpoint substring_of (needle haystack : string) : bool :=
  String.prefix needle haystack
  || match haystack with
     | EmptyString => false
     | String _ rest => substring_of needle rest
     end.

(** A value that can be a dict key ([list] and [dict] are unhashable). *)
Definition hashable (v : value) : bool :=
  match v with VList _ | VDict _ => false | _ => true end.

End Json.
Import Json.

(** ** Exceptions and outcomes *)

(** The exceptions (subclasses of [Exception]) that occur.
    [IncorrectAPIResponse] comes from the project's [exceptions] module;
    the code builds it either from one message or from a message and the
    exception it wraps, hence the optional second argument.  [OtherError]
    stands for any exception class of the HTTP client, the JSON decoder
    or the Telegram client that is not a [TelegramError]. *)
Inductive exn : Type :=
| IncorrectAPIResponse (message : string) (wrapped : option exn)
| TypeError (message : string)
| KeyError (message : string)
| ValueError (message : string)
| AttributeError (message : string)
| TelegramError (message : string)
| OtherError (class_name message : string).

(** First positional argument of the exception, [e.args[0]]. *)
Definition exn_message (e : exn) : string :=
  match e with
  | IncorrectAPIResponse m _ => m
  | TypeError m | KeyError m | ValueError m | AttributeError m
  | TelegramError m => m
  | OtherError _ m => m
  end.

(** [isinstance(e, TelegramError)]. *)
Definition is_telegram_error (e : exn) : bool :=
  match e with TelegramError _ => true | _ => false end.

Inductive outcome (A : Type) : Type :=
| Return (a : A)
| Raise (e : exn).
Arguments Return {A} a.
Arguments Raise {A} e.

(** Messages of the errors raised by the interpreter itself. *)
Definition not_iterable (v : value) : exn :=
  TypeError ("argument of type '" ++ type_name v ++ "' is not iterable").

Definition no_attribute (v : value) (attr : string) : exn :=
  AttributeError
    ("'" ++ type_name v ++ "' object has no attribute '" ++ attr ++ "'").

Definition unhashable (v : value) : exn :=
  TypeError ("unhashable type: '" ++ type_name v ++ "'").

(** [key in v]: key test on a dict, element test on a list, substring
    test on a string; any other value raises [TypeError]. *)
Definition py_in (key : string) (v : value) : outcome bool :=
  match v with
  | VDict d => Return (has_key key d)
  | VList l => Return (existsb (eq_str key) l)
  | VStr s => Return (substring_of key s)
  | _ => Raise (not_iterable v)
  end.

(** Sequencing of code that may raise. *)
Definition bind {A B} (m : outcome A) (k : A -> outcome B) : outcome B :=
  match m with
  | Return a => k a
  | Raise e => Raise e
  end.

Notation "x <- m ;; k" := (bind m (fun x => k))
  (at level 61, m at next level, right associativity).

(** The double-quote character, for the messages that contain one. *)
Definition dq : string := String (ascii_of_nat 34) EmptyString.

(** ** check_response *)

Definition NO_HOMEWORKS_KEY : string :=
  "Response does not contain " ++ dq ++ "homeworks" ++ dq ++ " key".
Definition NOT_A_DICTIONARY : string := "Response is not a dictionary".
Definition HOMEWORKS_NOT_A_LIST : string :=
  dq ++ "homeworks" ++ dq ++ " value is not a list".
Definition NO_CURRENT_DATE_KEY : string :=
  "Response does not contain " ++ dq ++ "current_date" ++ dq ++ " key".

(** [check_response(response)], lines 94-114.  The four tests are in the
    order of the source.  Past the [isinstance(response, dict)] test the
    response is a dict, and past the [isinstance(.., list)] test the value
    under [homeworks] is a list, whose items are returned. *)
Definition check_response (response : value) : outcome (list value) :=
  has_homeworks <- py_in "homeworks" response ;;
  if negb has_homeworks then Raise (TypeError NO_HOMEWORKS_KEY)
  else
    match response with
    | VDict fields =>
        match lookup "homeworks" fields with
        | Some (VList items) =>
            if negb (has_key "current_date" fields)
            then Raise (TypeError NO_CURRENT_DATE_KEY)
            else Return items
        | Some _ => Raise (TypeError HOMEWORKS_NOT_A_LIST)
        | None => Raise (KeyError "homeworks")
        end
    | _ => Raise (TypeError NOT_A_DICTIONARY)
    end.

(** ** parse_status *)

Definition HOMEWORK_VERDICTS : list (string * string) :=
  [ ("approved", "Работа проверена: ревьюеру всё понравилось. Ура!");
    ("reviewing", "Работа взята на проверку ревьюером.");
    ("rejected", "Работа проверена: у ревьюера есть замечания.") ].

Fixpoint table_get (key : string) (table : list (string * string))
  : option string :=
  match table with
  | [] => None
  | (k, v) :: rest => if String.eqb key k then Some v else table_get key rest
  end.

(** [HOMEWORK_VERDICTS.get(key)]: the key is hashed first, which raises
    on a list or a dict; a key that is not a string equals no key of the
    table. *)
Definition verdicts_get (key : value) : outcome (option string) :=
  match key with
  | VList _ | VDict _ => Raise (unhashable key)
  | VStr s => Return (table_get s HOMEWORK_VERDICTS)
  | _ => Return None
  end.

(** [v.get(key)]: only a dict has the method. *)
Definition py_get (v : value) (key : string) : outcome value :=
  match v with
  | VDict d =>
      Return (match lookup key d with Some x => x | None => VNone end)
  | _ => Raise (no_attribute v "get")
  end.

(** [v.get(key, default)]. *)
Definition py_get_default (v : value) (key : string) (default : value)
  : outcome value :=
  match v with
  | VDict d =>
      Return (match lookup key d with Some x => x | None => default end)
  | _ => Raise (no_attribute v "get")
  end.

(** [v[key]] for a string key, reached in the source on a dict only. *)
Definition subscript (v : value) (key : string) : outcome value :=
  match v with
  | VDict d =>
      match lookup key d with
      | Some x => Return x
      | None => Raise (KeyError key)
      end
  | VList _ =>
      Raise (TypeError "list indices must be integers or slices, not str")
  | VStr _ => Raise (TypeError "string indices must be integers, not 'str'")
  | _ => Raise (TypeError ("'" ++ type_name v ++ "' object is not subscriptable"))
  end.

Definition NO_HOMEWORK_NAME : string :=
  "No key for homework_name in API response".
Definition INVALID_STATUS : string := "Invalid status value in API response".
Definition STATUS_CHANGED : string := "Изменился статус проверки работы ".

(** ** The outside world and the trace of a run *)

Inductive level : Type := DEBUG | INFO | ERROR | CRITICAL.

(** What the program does to the outside world, in the order it does it. *)
Inductive event : Type :=
| Log (lvl : level) (text : string)
    (* logging.debug / info / error / critical *)
| HttpGet (url authorization : string) (from_date : value)
    (* requests.get(url=.., headers=.., params={'from_date': ..}) *)
| BotSend (chat_id : option string) (text : string)
    (* bot.send_message(TELEGRAM_CHAT_ID, text) *)
| Sleep (seconds : Z).
    (* time.sleep(seconds) *)

(** The three environment variables, [None] when unset. *)
Record credentials : Type := {
  PRACTICUM_TOKEN : option string;
  TELEGRAM_TOKEN : option string;
  TELEGRAM_CHAT_ID : option string
}.

(** A reading of the clock, in nanoseconds since the epoch. *)
Definition instant : Type := Z.

(** [time.time_ns()]. *)
Definition time_ns (now : instant) : Z := now.

(** [int(time.time())]: whole seconds, truncated towards zero. *)
Definition int_time (now : instant) : Z := Z.quot now 1000000000.

(** What [requests.get] does: it raises, or it gives a response with its
    [status_code], [reason], [text] and the result of [.json()]. *)
Inductive http_reply : Type :=
| RequestFails (e : exn)
| Response (status_code : Z) (reason text : string) (json : outcome value).

(** The Telegram client: for the text it is asked to send, it delivers
    ([None]) or raises. *)
Definition bot_client : Type := string -> option exn.

(** The outside world during one iteration of the loop. *)
Record world : Type := {
  now_fetch : instant;    (* the clock when get_api_answer reads it *)
  now_main : instant;     (* the clock when main reads it *)
  http : http_reply;
  bot : bot_client
}.

(** ** Programs: state, trace and exceptions *)

Section Prog.

Context {S : Type}.

(** A program runs from a state and leaves the events it caused, the
    state it reached, and a value or the exception it raised.  The state
    reached is kept when it raises, like the assignments of a Python
    function body. *)
Definition prog (A : Type) : Type := S -> list event * S * outcome A.

Definition ret {A} (a : A) : prog A := fun s => ([], s, Return a).

Definition raise {A} (e : exn) : prog A := fun s => ([], s, Raise e).

Definition lift {A} (o : outcome A) : prog A := fun s => ([], s, o).

Definition emit (ev : event) : prog unit := fun s => ([ev], s, Return tt).

Definition get : prog S := fun s => ([], s, Return s).

Definition modify (f : S -> S) : prog unit := fun s => ([], f s, Return tt).

Definition seq {A B} (m : prog A) (k : A -> prog B) : prog B :=
  fun s =>
    let '(t, s1, r) := m s in
    match r with
    | Raise e => (t, s1, Raise e)
    | Return a => let '(t', s2, r') := k a s1 in ((t ++ t')%list, s2, r')
    end.

(** [try: body / except <catches> as e: handler e]. *)
Definition try_except {A} (body : prog A) (catches : exn -> bool)
    (handler : exn -> prog A) : prog A :=
  fun s =>
    let '(t, s1, r) := body s in
    match r with
    | Return a => (t, s1, Return a)
    | Raise e =>
        if catches e
        then let '(t', s2, r') := handler e s1 in ((t ++ t')%list, s2, r')
        else (t, s1, Raise e)
    end.

(** [try: body / finally: cleanup]. *)
Definition try_finally {A} (body : prog A) (cleanup : prog unit) : prog A :=
  fun s =>
    let '(t, s1, r) := body s in
    let '(t', s2, r') := cleanup s1 in
    match r' with
    | Raise e => ((t ++ t')%list, s2, Raise e)
    | Return _ => ((t ++ t')%list, s2, r)
    end.

End Prog.

Arguments prog : clear implicits.

Notation "x <~ m ;; k" := (seq m (fun x => k))
  (at level 61, m at next level, right associativity).
Notation "m ;;; k" := (seq m (fun _ => k))
  (at level 61, right associativity).

(** [except Exception]: every exception of [exn] is one. *)
Definition any_exception (e : exn) : bool := true.

Definition RETRY_PERIOD : Z := 600.
Definition ENDPOINT : string :=
  "https://practicum.yandex.ru/api/user_api/homework_statuses/".

(** [f'{x}'] of an optional string: [None] prints as its name. *)
Definition format_optional (x : option string) : string :=
  match x with Some s => s | None => "None" end.

(** [HEADERS['Authorization']]. *)
Definition AUTHORIZATION (cfg : credentials) : string :=
  "OAuth " ++ format_optional (PRACTICUM_TOKEN cfg).

(** [f'{n}'] of an integer. *)
Definition format_int (n : Z) : string := NilZero.string_of_int (Z.to_int n).

(** Truthiness of an environment variable. *)
Definition token_set (x : option string) : bool :=
  match x with
  | Some (String _ _) => true
  | _ => false
  end.

(** [check_tokens()], lines 32-41. *)
Definition check_tokens {S} (cfg : credentials) : prog S bool :=
  emit (Log INFO "check for all tokens availability") ;;;
  ret (forallb token_set
         [PRACTICUM_TOKEN cfg; TELEGRAM_TOKEN cfg; TELEGRAM_CHAT_ID cfg]).

Definition BEGIN_REQUEST : string :=
  "Begin request to API. Request:{url}, {headers}, {params}.".
Definition GOT_RESPONSE : string :=
  "got API response. Request: {url}, {headers}, {params}".

(** The message built at lines 78-83. *)
Definition not_200 (status_code : Z) (reason text : string) : string :=
  "API response does not return 200."
  ++ "Response code: " ++ format_int status_code ++ "."
  ++ "Reason: " ++ reason ++ "."
  ++ "Text: " ++ text ++ ".".

(** [requests.get(...)] followed by the status test and [.json()],
    lines 71-84. *)
Definition request {S} (cfg : credentials) (w : world) (timeline : value)
  : prog S value :=
  emit (HttpGet ENDPOINT (AUTHORIZATION cfg) timeline) ;;;
  match http w with
  | RequestFails e => raise e
  | Response status_code reason text json =>
      if negb (status_code =? 200)
      then raise (IncorrectAPIResponse (not_200 status_code reason text) None)
      else lift json
  end.

(** [get_api_answer(load)], lines 58-91. *)
Definition get_api_answer {S} (cfg : credentials) (w : world) (load : value)
  : prog S value :=
  let timeline := py_or load (VInt (time_ns (now_fetch w))) in
  let message := BEGIN_REQUEST in
  emit (Log INFO message) ;;;
  try_finally
    (try_except (request cfg w timeline) any_exception
       (fun error => raise (IncorrectAPIResponse message (Some error))))
    (emit (Log INFO GOT_RESPONSE)).

Section Bot.

(** The two renderings of the Python runtime that the source relies on
    and does not define: how an f-string shows a value that is not a
    string, and [str(error)] of an exception (for the project's own
    [IncorrectAPIResponse], whose class is declared in the [exceptions]
    module). *)
Variable format_other : value -> string.
Variable str_exn : exn -> string.

(** [f'{v}']: a string is inserted as it is. *)
Definition py_format (v : value) : string :=
  match v with
  | VStr s => s
  | _ => format_other v
  end.

(** [parse_status(homework)], lines 117-133. *)
Definition parse_status (homework : value) : outcome string :=
  has_name <- py_in "homework_name" homework ;;
  if negb has_name then Raise (KeyError NO_HOMEWORK_NAME)
  else
    status <- py_get homework "status" ;;
    verdict <- verdicts_get status ;;
    match verdict with
    | None => Raise (ValueError INVALID_STATUS)
    | Some verdict =>
        homework_name <- subscript homework "homework_name" ;;
        Return (STATUS_CHANGED ++ dq ++ py_format homework_name ++ dq
                ++ ". " ++ verdict)
    end.

(** [send_message(bot, message)], lines 44-56. *)
Definition send_message {S} (cfg : credentials) (client : bot_client)
    (message : string) : prog S unit :=
  try_except
    (emit (Log DEBUG "Send of status into telegram") ;;;
     emit (BotSend (TELEGRAM_CHAT_ID cfg) message) ;;;
     match client message with
     | Some e => raise e
     | None => emit (Log INFO message)
     end)
    is_telegram_error
    (fun e =>
       emit (Log ERROR
               ("something wrong with message sending to telegram: "
                ++ str_exn e))).

(** ** main *)

(** The two variables of [main] that the loop updates. *)
Record loop_state : Type := {
  load : value;
  prev_msg : string
}.

Definition set_load (v : value) (st : loop_state) : loop_state :=
  {| load := v; prev_msg := prev_msg st |}.

Definition set_prev_msg (m : string) (st : loop_state) : loop_state :=
  {| load := load st; prev_msg := m |}.

Definition NO_NEW_STATUS : string := "No new status".
Definition FAILURE : string := "Сбой в работе программы: ".
Definition NO_TOKEN : string := "No token. Bot operation stopped!".
Definition START_MESSAGE : string := "Bot starts operation".

(** Lines 152-160: fetch, move the cursor, validate, translate. *)
Definition next_message (cfg : credentials) (w : world)
  : prog loop_state string :=
  st <~ get ;;
  response <~ get_api_answer cfg w (load st) ;;
  new_load <~ lift (py_get_default response "current_date"
                      (VInt (int_time (now_main w)))) ;;
  modify (set_load new_load) ;;;
  homeworks <~ lift (check_response response) ;;
  match homeworks with
  | first :: _ => lift (parse_status first)
  | [] => ret NO_NEW_STATUS
  end.

(** The body of the [try], lines 152-165. *)
Definition try_body (cfg : credentials) (w : world) : prog loop_state unit :=
  message <~ next_message cfg w ;;
  st <~ get ;;
  if negb (String.eqb message (prev_msg st))
  then send_message cfg (bot w) message ;;;
       modify (set_prev_msg message)
  else emit (Log INFO message).

(** The body of [except Exception as error], lines 168-172. *)
Definition on_error (cfg : credentials) (w : world) (error : exn)
  : prog loop_state unit :=
  let message := FAILURE ++ str_exn error in
  emit (Log ERROR message) ;;;
  st <~ get ;;
  if negb (String.eqb message (prev_msg st))
  then send_message cfg (bot w) message ;;;
       modify (set_prev_msg message)
  else ret tt.

(** One turn of [while True], lines 151-175. *)
Definition iteration (cfg : credentials) (w : world) : prog loop_state unit :=
  try_finally
    (try_except (try_body cfg w) any_exception (on_error cfg w))
    (emit (Sleep RETRY_PERIOD)).

(** [while True] over the worlds of its first iterations; reaching the
    end of the list with [Return] means that the loop is still going. *)
Fixpoint while_true (cfg : credentials) (ws : list world)
  : prog loop_state unit :=
  match ws with
  | [] => ret tt
  | w :: rest => iteration cfg w ;;; while_true cfg rest
  end.

(** How a run of [main] stands after the iterations it was given. *)
Inductive standing : Type :=
| Exited (argument : string)   (* sys.exit(argument) *)
| Crashed (e : exn)            (* an exception left main *)
| Polling (st : loop_state).   (* the loop goes on from st *)

(** The exit status of [sys.exit] with a string: the string goes to
    stderr and the status is 1. *)
Definition exit_status (argument : string) : Z := 1.

(** [main()], lines 136-175, run for the iterations [ws]; [now] and
    [client] are the clock and the Telegram client at startup.  The
    construction [telegram.Bot(token=..)] of line 143 only builds the
    client object and leaves no event. *)
Definition main (cfg : credentials) (now : instant) (client : bot_client)
    (ws : list world) : list event * standing :=
  let '(t0, _, ok) := check_tokens cfg tt in
  match ok with
  | Raise e => (t0, Crashed e)
  | Return false => ((t0 ++ [Log CRITICAL NO_TOKEN])%list, Exited NO_TOKEN)
  | Return true =>
      let st0 := {| load := VInt (int_time now); prev_msg := EmptyString |} in
      let '(t1, st1, r1) :=
        (send_message cfg client START_MESSAGE ;;;
         emit (Log INFO START_MESSAGE) ;;;
         while_true cfg ws) st0 in
      match r1 with
      | Raise e => ((t0 ++ t1)%list, Crashed e)
      | Return _ => ((t0 ++ t1)%list, Polling st1)
      end
  end.

End Bot.

(** ** Notions used to state the properties *)

(** *** Order of the checks of check_response *)

(** A schema check: when it is violated, and the message it reports. *)
Record check : Type := {
  violated : value -> bool;
  complaint : string
}.

(** [key not in r], counted as violated when the test cannot be made. *)
Definition lacks (key : string) (r : value) : bool :=
  match py_in key r with
  | Return b => negb b
  | Raise _ => true
  end.

Definition homeworks_not_a_list (r : value) : bool :=
  match r with
  | VDict fields =>
      match lookup "homeworks" fields with
      | Some (VList _) | None => false
      | Some _ => true
      end
  | _ => false
  end.

Definition NOT_MAPPING : check :=
  {| violated := fun r => negb (is_dict r); complaint := NOT_A_DICTIONARY |}.
Definition HOMEWORKS_ABSENT : check :=
  {| violated := lacks "homeworks"; complaint := NO_HOMEWORKS_KEY |}.
Definition HOMEWORKS_NOT_SEQUENCE : check :=
  {| violated := homeworks_not_a_list; complaint := HOMEWORKS_NOT_A_LIST |}.
Definition CURRENT_DATE_ABSENT : check :=
  {| violated := lacks "current_date"; complaint := NO_CURRENT_DATE_KEY |}.

(** The order in which the specification lists the checks. *)
Definition stated_order : list check :=
  [NOT_MAPPING; HOMEWORKS_ABSENT; HOMEWORKS_NOT_SEQUENCE; CURRENT_DATE_ABSENT].

(** The order in which [check_response] makes them. *)
Definition source_order : list check :=
  [HOMEWORKS_ABSENT; NOT_MAPPING; HOMEWORKS_NOT_SEQUENCE; CURRENT_DATE_ABSENT].

(** The message of the first violated check of a list. *)
Definition first_violation (checks : list check) (r : value) : option string :=
  option_map complaint (find (fun c => violated c r) checks).

(** The values on which Python can evaluate [key in r]. *)
Definition supports_in (r : value) : bool :=
  match r with
  | VDict _ | VList _ | VStr _ => true
  | _ => false
  end.

(** *** The translation of a record, in the words of the specification *)

(** The fixed three-entry verdict table. *)
Definition verdict_of_status (status : string) : option string :=
  if String.eqb status "approved"
  then Some "Работа проверена: ревьюеру всё понравилось. Ура!"
  else if String.eqb status "reviewing"
  then Some "Работа взята на проверку ревьюером."
  else if String.eqb status "rejected"
  then Some "Работа проверена: у ревьюера есть замечания."
  else None.

(** translate: [homework_name] is looked at first; then the status must
    be in the table; the result has the exact format of the message, with
    the name of the record between the quotes: a name that is a string
    stands there as it is, any other value as the f-string shows it. *)
Definition translate (format_other : value -> string)
    (record : list (string * value)) : outcome string :=
  match lookup "homework_name" record with
  | None => Raise (KeyError NO_HOMEWORK_NAME)
  | Some name =>
      match lookup "status" record with
      | Some (VStr status) =>
          match verdict_of_status status with
          | Some verdict =>
              Return ("Изменился статус проверки работы " ++ dq
                      ++ match name with
                         | VStr text => text
                         | other => format_other other
                         end
                      ++ dq ++ ". " ++ verdict)
          | None => Raise (ValueError INVALID_STATUS)
          end
      | _ => Raise (ValueError INVALID_STATUS)
      end
  end.

(** The status of a record, when it has one, can be looked up in a table. *)
Definition status_hashable (record : list (string * value)) : bool :=
  match lookup "status" record with
  | Some status => hashable status
  | None => true
  end.

(** *** Reading a trace *)

(** The texts handed to the Telegram client, in order. *)
Definition sent (t : list event) : list string :=
  flat_map (fun ev => match ev with BotSend _ text => [text] | _ => [] end) t.

(** The [from_date] of the requests made, in order. *)
Definition requested (t : list event) : list value :=
  flat_map (fun ev => match ev with HttpGet _ _ d => [d] | _ => [] end) t.

(** The durations slept, in order. *)
Definition slept (t : list event) : list Z :=
  flat_map (fun ev => match ev with Sleep n => [n] | _ => [] end) t.

Arguments FAILURE : simpl never.
Arguments sent : simpl never.
Arguments requested : simpl never.
Arguments slept : simpl never.

(** A client whose only failures are [TelegramError]s. *)
Definition client_errors_only (client : bot_client) : Prop :=
  forall text e, client text = Some e -> is_telegram_error e = true.

(** *** Credentials *)

(** An environment variable set to the empty string, read as unset. *)
Definition unset_if_empty (x : option string) : option string :=
  match x with
  | Some EmptyString => None
  | _ => x
  end.

Definition unset_empty (cfg : credentials) : credentials :=
  {| PRACTICUM_TOKEN := unset_if_empty (PRACTICUM_TOKEN cfg);
     TELEGRAM_TOKEN := unset_if_empty (TELEGRAM_TOKEN cfg);
     TELEGRAM_CHAT_ID := unset_if_empty (TELEGRAM_CHAT_ID cfg) |}.

(** What main logs and sends first when the credentials are there. *)
Definition STARTUP (cfg : credentials) : list event :=
  [ Log INFO "check for all tokens availability";
    Log DEBUG "Send of status into telegram";
    BotSend (TELEGRAM_CHAT_ID cfg) START_MESSAGE ].

(** What main logs when a credential is missing. *)
Definition NO_STARTUP : list event :=
  [ Log INFO "check for all tokens availability";
    Log CRITICAL NO_TOKEN ].

(** *** The loop *)

(** The three components of the result of a program. *)
Definition trace_of {S A} (x : list event * S * outcome A) : list event :=
  fst (fst x).
Definition state_of {S A} (x : list event * S * outcome A) : S :=
  snd (fst x).
Definition result_of {S A} (x : list event * S * outcome A) : outcome A :=
  snd x.

(** The message of an iteration: the one that lines 152-160 produce, or
    the diagnostic of the error they raise. *)
Definition produced (format_other : value -> string) (str_exn : exn -> string)
    (cfg : credentials) (w : world) (st : loop_state) : string :=
  match result_of (next_message format_other cfg w st) with
  | Return m => m
  | Raise e => FAILURE ++ str_exn e
  end.

(** The messages of consecutive iterations. *)
Fixpoint messages (format_other : value -> string) (str_exn : exn -> string)
    (cfg : credentials) (ws : list world) (st : loop_state) : list string :=
  match ws with
  | [] => []
  | w :: rest =>
      produced format_other str_exn cfg w st
      :: messages format_other str_exn cfg rest
           (state_of (iteration format_other str_exn cfg w st))
  end.

(** Deduplication against the last message: a message equal to the
    previous one is dropped. *)
Fixpoint dedup_from (prev : string) (l : list string) : list string :=
  match l with
  | [] => []
  | m :: rest =>
      if String.eqb m prev then dedup_from prev rest
      else m :: dedup_from m rest
  end.

(** No element equals the one before it, [prev] standing before the
    first. *)
Fixpoint stutter_free (prev : string) (l : list string) : bool :=
  match l with
  | [] => true
  | m :: rest => negb (String.eqb m prev) && stutter_free m rest
  end.

(** The cursor that main stores after a response that is a dict. *)
Definition cursor_after (fields : list (string * value)) (w : world) : value :=
  match lookup "current_date" fields with
  | Some current_date => current_date
  | None => VInt (int_time (now_main w))
  end.

(** ** Sample data *)

Module Samples.

(** The examples render an exception by its first argument, and contain
    no homework name that is not a string. *)
Definition show_exn : exn -> string := exn_message.
Definition show_value : value -> string := type_name.

Definition cfg : credentials :=
  {| PRACTICUM_TOKEN := Some "practicum";
     TELEGRAM_TOKEN := Some "telegram";
     TELEGRAM_CHAT_ID := Some "42" |}.

(** The same without a value for the bot token. *)
Definition cfg_empty_token : credentials :=
  {| PRACTICUM_TOKEN := Some "practicum";
     TELEGRAM_TOKEN := Some EmptyString;
     TELEGRAM_CHAT_ID := Some "42" |}.

(** A client that delivers everything, and one that breaks down with an
    exception that is not a TelegramError. *)
Definition delivering : bot_client := fun _ => None.
Definition broken : bot_client :=
  fun _ => Some (OtherError "RuntimeError" "client failure").

Definition hw1 : list (string * value) :=
  [("homework_name", VStr "hw1"); ("status", VStr "approved")].

Definition with_http (reply : http_reply) : world :=
  {| now_fetch := 1700000000123456789;
     now_main := 1700000000123456789;
     http := reply;
     bot := delivering |}.

(** Scenarios A to D of the specification. *)
Definition response_A : list (string * value) :=
  [("homeworks", VList [VDict hw1]); ("current_date", VInt 1000)].
Definition wA : world :=
  with_http (Response 200 "OK" "{...}" (Return (VDict response_A))).
Definition wB : world :=
  with_http (Response 200 "OK" "{...}"
    (Return (VDict [("homeworks", VList []); ("current_date", VInt 1000)]))).
Definition wC : world :=
  with_http (Response 200 "OK" "{...}"
    (Return (VDict [("current_date", VInt 1000)]))).
Definition wD : world :=
  with_http (Response 503 "Service Unavailable" "down" (Return VNone)).

(** The state of the loop when it starts at second 1700000000, and
    after an iteration in [wB]. *)
Definition started : loop_state :=
  {| load := VInt 1700000000; prev_msg := EmptyString |}.
Definition after_B : loop_state :=
  {| load := VInt 1000; prev_msg := NO_NEW_STATUS |}.

End Samples.

(** More sample data: a response with two homeworks, a response that is
    a JSON array, and clients that break down. *)
Module MoreSamples.

Import Samples.

Definition hw2 : list (string * value) :=
  [("homework_name", VStr "hw2"); ("status", VStr "rejected")].

Definition hw_list_status : list (string * value) :=
  [("homework_name", VStr "hw3"); ("status", VList [VStr "approved"])].

Definition response_two : value :=
  VDict [("homeworks", VList [VDict hw1; VDict hw2]);
         ("current_date", VInt 2000)].
Definition w_two : world :=
  with_http (Response 200 "OK" "{...}" (Return response_two)).

Definition w_array : world :=
  with_http (Response 200 "OK" "[]" (Return (VList []))).

(** Scenario D with a client that raises a RuntimeError on every text. *)
Definition wD_broken : world :=
  {| now_fetch := 1700000000123456789;
     now_main := 1700000000123456789;
     http := Response 503 "Service Unavailable" "down" (Return VNone);
     bot := broken |}.

(** A client that raises a RuntimeError on "No new status" and delivers
    every other text, and scenario B with it. *)
Definition flaky : bot_client :=
  fun text =>
    if String.eqb text NO_NEW_STATUS
    then Some (OtherError "RuntimeError" "client failure")
    else None.
Definition wB_flaky : world :=
  {| now_fetch := 1700000000123456789;
     now_main := 1700000000123456789;
     http := Response 200 "OK" "{...}"
               (Return (VDict [("homeworks", VList []);
                               ("current_date", VInt 1000)]));
     bot := flaky |}.


(** The error of get_api_answer in scenario D. *)
Definition error_503 : exn :=
  IncorrectAPIResponse BEGIN_REQUEST
    (Some (IncorrectAPIResponse
             (not_200 503 "Service Unavailable" "down") None)).

End MoreSamples.

(** ** Properties *)

Section Properties.

Variable format_other : value -> string.
Variable str_exn : exn -> string.

Lemma first_violation_cons (c : check) (rest : list check) (r : value) :
  first_violation (c :: rest) r =
  if violated c r then Some (complaint c) else first_violation rest r.
Proof.
  unfold first_violation. simpl. destruct (violated c r); reflexivity.
Qed.

(** On a response without membership test the first test itself raises
    the [TypeError]. *)
Lemma check_response_scalar (r : value) :
  supports_in r = false -> check_response r = Raise (not_iterable r).
Proof.
  destruct r; simpl; intros H; try discriminate; reflexivity.
Qed.

(** C1, as amended: on every response that supports the membership test,
    check_response reports the first violated check in the order
    [homeworks] absent, not a dict, [homeworks] not a list, [current_date]
    absent; when none is violated it returns the list under [homeworks]. *)
Theorem check_response_source_order (r : value) :
  supports_in r = true ->
  match first_violation source_order r with
  | Some m => check_response r = Raise (TypeError m)
  | None =>
      exists fields items,
        r = VDict fields
        /\ lookup "homeworks" fields = Some (VList items)
        /\ check_response r = Return items
  end.
Proof.
  intros Hin.
  unfold first_violation, source_order, check_response,
    HOMEWORKS_ABSENT, NOT_MAPPING, HOMEWORKS_NOT_SEQUENCE,
    CURRENT_DATE_ABSENT, lacks.
  destruct r as [ | b | n | x | s | items | fields ]; try discriminate Hin;
    cbn.
  - (* a string *)
    destruct (substring_of "homeworks" s); reflexivity.
  - (* a list *)
    destruct (existsb (eq_str "homeworks") items); reflexivity.
  - (* a dict *)
    unfold has_key.
    destruct (lookup "homeworks" fields) as [hw | ] eqn:Hhw; cbn.
    + destruct hw; cbn; try reflexivity.
      destruct (lookup "current_date" fields); cbn; try reflexivity.
      eauto.
    + reflexivity.
Qed.

(** C1, counterexample: on the empty JSON array the first check violated
    in the stated order is "not a mapping", and check_response reports
    the absence of [homeworks]. *)
Lemma check_response_not_stated_order :
  first_violation stated_order (VList []) = Some NOT_A_DICTIONARY
  /\ check_response (VList []) = Raise (TypeError NO_HOMEWORKS_KEY)
  /\ check_response (VList []) <> Raise (TypeError NOT_A_DICTIONARY).
Proof.
  repeat split; try reflexivity. discriminate.
Qed.

(** The table of the source is the three-entry table. *)
Lemma table_get_verdicts (status : string) :
  table_get status HOMEWORK_VERDICTS = verdict_of_status status.
Proof.
  unfold verdict_of_status. simpl.
  destruct (String.eqb status "approved"); [reflexivity | ].
  destruct (String.eqb status "reviewing"); [reflexivity | ].
  destruct (String.eqb status "rejected"); reflexivity.
Qed.

(** X17: a status that is a list or a dict cannot be looked up at all:
    on a record with a name, the lookup in the verdict table raises
    TypeError before the verdict is tested, so the error is not the
    ValueError of an invalid status. *)
Lemma parse_status_unhashable_status (record : list (string * value))
    (status : value) :
  has_key "homework_name" record = true ->
  lookup "status" record = Some status ->
  hashable status = false ->
  parse_status format_other (VDict record) = Raise (unhashable status).
Proof.
  intros Hname Hstatus Hhash. unfold parse_status. cbn.
  rewrite Hname, Hstatus. cbn.
  destruct status; try discriminate Hhash; reflexivity.
Qed.

(** C2: on every homework record (a dict whose status, when it has a
    name and a status, is a hashable value) parse_status is translate:
    KeyError when [homework_name] is absent, whatever the status;
    otherwise ValueError when the status is missing or outside the
    three-entry table; otherwise the message
    [Изменился статус проверки работы "{name}". {verdict}], in which
    a name that is a string stands as it is. *)
Theorem parse_status_translate (record : list (string * value)) :
  (has_key "homework_name" record = true -> status_hashable record = true) ->
  parse_status format_other (VDict record) = translate format_other record.
Proof.
  unfold status_hashable, parse_status, translate. cbn.
  unfold has_key.
  destruct (lookup "homework_name" record) as [name | ]; cbn;
    [ | reflexivity ].
  destruct (lookup "status" record) as [status | ]; cbn; [ | reflexivity ].
  intros Hhash. specialize (Hhash eq_refl).
  destruct status; try discriminate Hhash; cbn; reflexivity.
Qed.

(** *** get_api_answer *)

Lemma substring_of_prefix (needle haystack : string) :
  String.prefix needle haystack = true -> substring_of needle haystack = true.
Proof.
  destruct haystack; simpl; intros ->; reflexivity.
Qed.

Lemma prefix_append (needle rest : string) :
  String.prefix needle (needle ++ rest) = true.
Proof.
  induction needle as [ | c needle IH]; simpl.
  - destruct rest; reflexivity.
  - destruct (ascii_dec c c) as [ _ | Hneq]; [exact IH | now destruct Hneq].
Qed.

Lemma substring_of_here (needle rest : string) :
  substring_of needle (needle ++ rest) = true.
Proof.
  apply substring_of_prefix, prefix_append.
Qed.

Lemma substring_of_later (needle before haystack : string) :
  substring_of needle haystack = true ->
  substring_of needle (before ++ haystack) = true.
Proof.
  intros H. induction before as [ | c before IH]; simpl.
  - exact H.
  - rewrite IH. apply orb_true_r.
Qed.

(** The message built for a status other than 200 shows the status code,
    the reason phrase and the body. *)
Lemma not_200_shows (status_code : Z) (reason text : string) :
  substring_of (format_int status_code) (not_200 status_code reason text)
  = true
  /\ substring_of reason (not_200 status_code reason text) = true
  /\ substring_of text (not_200 status_code reason text) = true.
Proof.
  unfold not_200. repeat split.
  - do 2 apply substring_of_later. apply substring_of_here.
  - do 5 apply substring_of_later. apply substring_of_here.
  - do 8 apply substring_of_later. apply substring_of_here.
Qed.

(** What get_api_answer returns or raises, by what the HTTP client does. *)
Lemma get_api_answer_result {S : Type} (cfg : credentials) (w : world)
    (cursor : value) (s : S) :
  result_of (get_api_answer cfg w cursor s) =
  match http w with
  | RequestFails cause =>
      Raise (IncorrectAPIResponse BEGIN_REQUEST (Some cause))
  | Response status_code reason text json =>
      if status_code =? 200
      then
        match json with
        | Return decoded => Return decoded
        | Raise cause =>
            Raise (IncorrectAPIResponse BEGIN_REQUEST (Some cause))
        end
      else
        Raise (IncorrectAPIResponse BEGIN_REQUEST
                 (Some (IncorrectAPIResponse
                          (not_200 status_code reason text) None)))
  end.
Proof.
  unfold get_api_answer, request, try_finally, try_except, seq, emit, raise,
    lift, result_of.
  destruct (http w) as [cause | status_code reason text json]; cbn.
  - reflexivity.
  - destruct (status_code =? 200); cbn; [destruct json | ]; reflexivity.
Qed.

(** Whatever goes wrong inside the [try] of get_api_answer leaves it as
    an IncorrectAPIResponse whose own message is the fixed request-log
    text and whose second argument is the cause.
    For a status other than 200 the cause is the IncorrectAPIResponse
    whose message shows status code, reason phrase and body; for a
    request that cannot be completed, or a body that is not JSON, it is
    the error of the HTTP client. *)
Theorem get_api_answer_wraps_cause {S : Type} (cfg : credentials) (w : world)
    (cursor : value) (s : S) :
  match http w with
  | RequestFails cause =>
      result_of (get_api_answer cfg w cursor s)
      = Raise (IncorrectAPIResponse BEGIN_REQUEST (Some cause))
  | Response status_code reason text json =>
      if status_code =? 200
      then
        match json with
        | Return decoded =>
            result_of (get_api_answer cfg w cursor s) = Return decoded
        | Raise cause =>
            result_of (get_api_answer cfg w cursor s)
            = Raise (IncorrectAPIResponse BEGIN_REQUEST (Some cause))
        end
      else
        exists m,
          result_of (get_api_answer cfg w cursor s)
          = Raise (IncorrectAPIResponse BEGIN_REQUEST
                     (Some (IncorrectAPIResponse m None)))
          /\ substring_of (format_int status_code) m = true
          /\ substring_of reason m = true
          /\ substring_of text m = true
  end.
Proof.
  rewrite get_api_answer_result.
  destruct (http w) as [cause | status_code reason text json].
  - reflexivity.
  - destruct (status_code =? 200).
    + destruct json; reflexivity.
    + exists (not_200 status_code reason text).
      split; [reflexivity | apply not_200_shows].
Qed.

(** *** send_message *)

(** What a call of send_message does, by what the client does with the
    text. *)
Lemma send_message_runs {S : Type} (cfg : credentials)
    (client : bot_client) (text : string) (s : S) :
  send_message str_exn cfg client text s =
  match client text with
  | None =>
      ([ Log DEBUG "Send of status into telegram";
         BotSend (TELEGRAM_CHAT_ID cfg) text;
         Log INFO text ], s, Return tt)
  | Some e =>
      if is_telegram_error e
      then
        ([ Log DEBUG "Send of status into telegram";
           BotSend (TELEGRAM_CHAT_ID cfg) text;
           Log ERROR ("something wrong with message sending to telegram: "
                      ++ str_exn e) ], s, Return tt)
      else
        ([ Log DEBUG "Send of status into telegram";
           BotSend (TELEGRAM_CHAT_ID cfg) text ], s, Raise e)
  end.
Proof.
  unfold send_message, try_except, seq, emit, raise. cbn.
  destruct (client text) as [e | ]; cbn; [ | reflexivity ].
  destruct (is_telegram_error e); reflexivity.
Qed.

(** C6, as amended: send_message hands the text to the client once; when
    the client delivers, or raises a TelegramError, it returns normally
    and the failure is only logged; any other exception of the client
    leaves send_message. *)
Theorem send_message_outcome {S : Type} (cfg : credentials)
    (client : bot_client) (text : string) (s : S) :
  send_message str_exn cfg client text s =
  match client text with
  | None =>
      ([ Log DEBUG "Send of status into telegram";
         BotSend (TELEGRAM_CHAT_ID cfg) text;
         Log INFO text ], s, Return tt)
  | Some e =>
      if is_telegram_error e
      then
        ([ Log DEBUG "Send of status into telegram";
           BotSend (TELEGRAM_CHAT_ID cfg) text;
           Log ERROR ("something wrong with message sending to telegram: "
                      ++ str_exn e) ], s, Return tt)
      else
        ([ Log DEBUG "Send of status into telegram";
           BotSend (TELEGRAM_CHAT_ID cfg) text ], s, Raise e)
  end.
Proof.
  unfold send_message, try_except, seq, emit, raise. cbn.
  destruct (client text) as [e | ]; cbn; [ | reflexivity ].
  destruct (is_telegram_error e); reflexivity.
Qed.

(** The requests of one call of get_api_answer: exactly one, with
    [load or time.time_ns()] as its [from_date]. *)
Lemma get_api_answer_requested {S : Type} (cfg : credentials) (w : world)
    (cursor : value) (s : S) :
  requested (trace_of (get_api_answer cfg w cursor s))
  = [py_or cursor (VInt (time_ns (now_fetch w)))].
Proof.
  unfold get_api_answer, request, try_finally, try_except, seq, emit, raise,
    lift, trace_of, state_of.
  destruct (http w) as [cause | status_code reason text json]; cbn.
  - reflexivity.
  - destruct (status_code =? 200); cbn; [destruct json | ]; reflexivity.
Qed.

(** get_api_answer leaves the state alone. *)
Lemma get_api_answer_state {S : Type} (cfg : credentials) (w : world)
    (cursor : value) (s : S) :
  state_of (get_api_answer cfg w cursor s) = s.
Proof.
  unfold get_api_answer, request, try_finally, try_except, seq, emit, raise,
    lift, trace_of, state_of.
  destruct (http w) as [cause | status_code reason text json]; cbn.
  - reflexivity.
  - destruct (status_code =? 200); cbn; [destruct json | ]; reflexivity.
Qed.

(** C9: a falsy cursor (0, None, ...) is not sent: the [from_date] of the
    request is the clock in nanoseconds, which after the epoch is not 0,
    so that no cursor at all makes a request with [from_date = 0]; and it
    is the seconds-based reading of the same clock scaled by 10^9. *)
Theorem falsy_cursor_replaced {S : Type} (cfg : credentials) (w : world)
    (cursor : value) (s : S) :
  truthy cursor = false ->
  0 < now_fetch w ->
  requested (trace_of (get_api_answer cfg w cursor s))
  = [VInt (time_ns (now_fetch w))]
  /\ (forall any_cursor : value,
        ~ In (VInt 0)
            (requested (trace_of (get_api_answer cfg w any_cursor s))))
  /\ 1000000000 * int_time (now_fetch w) <= time_ns (now_fetch w)
     < 1000000000 * (int_time (now_fetch w) + 1)
  /\ int_time (now_fetch w) < time_ns (now_fetch w).
Proof.
  intros Hfalsy Hclock. split; [ | split ].
  - rewrite get_api_answer_requested. unfold py_or. rewrite Hfalsy.
    reflexivity.
  - intros any_cursor. rewrite get_api_answer_requested. unfold py_or.
    intros [Hin | []].
    destruct (truthy any_cursor) eqn:Htruthy.
    + rewrite Hin in Htruthy. discriminate Htruthy.
    + injection Hin. unfold time_ns. lia.
  - unfold time_ns, int_time.
    assert (Hq : Z.quot (now_fetch w) 1000000000 = now_fetch w / 1000000000)
      by (apply Z.quot_div_nonneg; lia).
    rewrite Hq.
    pose proof (Z.div_mod (now_fetch w) 1000000000 ltac:(lia)) as Hdm.
    pose proof (Z.mod_pos_bound (now_fetch w) 1000000000 ltac:(lia)) as Hm.
    lia.
Qed.

(** *** Startup *)

(** C8: when a credential is missing, main logs the critical failure and
    exits with a non-zero status, and the whole trace is these two log
    entries: no request and no send.  When the three are present, main
    first sends the startup notification, and the loop starts with the
    cursor at the current time in seconds and no previous message. *)
Theorem startup (cfg : credentials) (now : instant) (client : bot_client)
    (ws : list world) :
  match PRACTICUM_TOKEN cfg, TELEGRAM_TOKEN cfg, TELEGRAM_CHAT_ID cfg with
  | Some (String _ _), Some (String _ _), Some (String _ _) =>
      (exists rest,
         fst (main format_other str_exn cfg now client ws)
         = (STARTUP cfg ++ rest)%list)
      /\ snd (main format_other str_exn cfg now client [])
         = match client START_MESSAGE with
           | Some e =>
               if is_telegram_error e
               then Polling {| load := VInt (int_time now);
                               prev_msg := EmptyString |}
               else Crashed e
           | None => Polling {| load := VInt (int_time now);
                                prev_msg := EmptyString |}
           end
  | _, _, _ =>
      main format_other str_exn cfg now client ws
      = (NO_STARTUP, Exited NO_TOKEN)
      /\ exit_status NO_TOKEN <> 0
      /\ requested NO_STARTUP = [] /\ sent NO_STARTUP = []
  end.
Proof.
  assert (Hno : exit_status NO_TOKEN <> 0 /\ requested NO_STARTUP = []
                /\ sent NO_STARTUP = [])
    by (repeat split; discriminate).
  unfold main. cbn.
  destruct (PRACTICUM_TOKEN cfg) as [[ | c1 p] | ]; cbn;
    try (split; [reflexivity | exact Hno]).
  destruct (TELEGRAM_TOKEN cfg) as [[ | c2 t] | ]; cbn;
    try (split; [reflexivity | exact Hno]).
  destruct (TELEGRAM_CHAT_ID cfg) as [[ | c3 i] | ] eqn:Hchat; cbn;
    try (split; [reflexivity | exact Hno]).
  unfold seq. rewrite !send_message_runs. unfold STARTUP.
  rewrite Hchat.
  destruct (client START_MESSAGE) as [e | ]; cbn.
  - destruct (is_telegram_error e); cbn.
    + destruct (while_true format_other str_exn cfg ws _) as [[tr st] r].
      split; [ | reflexivity ].
      destruct r; cbn; eexists; reflexivity.
    + split; [eexists | ]; reflexivity.
  - destruct (while_true format_other str_exn cfg ws _) as [[tr st] r].
    split; [ | reflexivity ].
    destruct r; cbn; eexists; reflexivity.
Qed.

(** C10: a credential that is set to the empty string counts as missing:
    check_tokens returns False and main stops as it does without the
    variable. *)
Theorem empty_credential_is_missing (cfg : credentials) (now : instant)
    (client : bot_client) (ws : list world) :
  In (Some EmptyString)
     [PRACTICUM_TOKEN cfg; TELEGRAM_TOKEN cfg; TELEGRAM_CHAT_ID cfg] ->
  snd (check_tokens cfg tt) = Return false
  /\ snd (check_tokens (unset_empty cfg) tt) = Return false
  /\ main format_other str_exn cfg now client ws
     = (NO_STARTUP, Exited NO_TOKEN)
  /\ main format_other str_exn cfg now client ws
     = main format_other str_exn (unset_empty cfg) now client ws.
Proof.
  intros Hempty.
  assert (Hcheck : forallb token_set
            [PRACTICUM_TOKEN cfg; TELEGRAM_TOKEN cfg; TELEGRAM_CHAT_ID cfg]
          = false).
  { destruct Hempty as [H | [H | [H | []]]]; rewrite H; cbn.
    - reflexivity.
    - destruct (token_set (PRACTICUM_TOKEN cfg)); reflexivity.
    - destruct (token_set (PRACTICUM_TOKEN cfg)),
        (token_set (TELEGRAM_TOKEN cfg)); reflexivity. }
  assert (Hcheck' : forallb token_set
            [PRACTICUM_TOKEN (unset_empty cfg); TELEGRAM_TOKEN (unset_empty cfg);
             TELEGRAM_CHAT_ID (unset_empty cfg)]
          = false).
  { rewrite <- Hcheck. cbn.
    destruct (PRACTICUM_TOKEN cfg) as [[ | ? ?] | ],
      (TELEGRAM_TOKEN cfg) as [[ | ? ?] | ],
      (TELEGRAM_CHAT_ID cfg) as [[ | ? ?] | ]; reflexivity. }
  unfold main, check_tokens, seq, emit, ret in *. cbn in *.
  cbn in Hcheck, Hcheck'.
  rewrite Hcheck, Hcheck'. repeat split; reflexivity.
Qed.

(** *** The loop *)

Lemma sent_app (a b : list event) : sent (a ++ b) = (sent a ++ sent b)%list.
Proof. apply flat_map_app. Qed.

Lemma slept_app (a b : list event) :
  slept (a ++ b) = (slept a ++ slept b)%list.
Proof. apply flat_map_app. Qed.

Lemma requested_app (a b : list event) :
  requested (a ++ b) = (requested a ++ requested b)%list.
Proof. apply flat_map_app. Qed.

(** Lines 152-160 send nothing, do not sleep, make one request with
    [load or time.time_ns()], and touch the cursor only. *)
Lemma next_message_quiet (cfg : credentials) (w : world) (st : loop_state) :
  prev_msg (state_of (next_message format_other cfg w st)) = prev_msg st
  /\ sent (trace_of (next_message format_other cfg w st)) = []
  /\ slept (trace_of (next_message format_other cfg w st)) = []
  /\ requested (trace_of (next_message format_other cfg w st))
     = [py_or (load st) (VInt (time_ns (now_fetch w)))].
Proof.
  unfold next_message, get_api_answer, request, try_finally, try_except, seq,
    emit, raise, lift, get, modify, ret, trace_of, state_of.
  destruct (http w) as [cause | status_code reason text json]; cbn.
  - repeat split; reflexivity.
  - destruct (status_code =? 200); cbn; [ | repeat split; reflexivity ].
    destruct json as [response | cause]; cbn; [ | repeat split; reflexivity ].
    destruct (py_get_default response "current_date" _) as [cursor | e]; cbn;
      [ | repeat split; reflexivity ].
    destruct (check_response response) as [[ | first others] | e]; cbn;
      repeat split; reflexivity.
Qed.

(** The cursor after lines 152-160. *)
Lemma next_message_cursor (cfg : credentials) (w : world) (st : loop_state) :
  load (state_of (next_message format_other cfg w st))
  = match http w with
    | Response 200 _ _ (Return (VDict fields)) => cursor_after fields w
    | _ => load st
    end.
Proof.
  unfold next_message, get_api_answer, request, try_finally, try_except, seq,
    emit, raise, lift, get, modify, ret, trace_of, state_of, cursor_after.
  destruct (http w) as [cause | status_code reason text json]; cbn.
  - reflexivity.
  - destruct (status_code =? 200) eqn:Hcode; cbn.
    + apply Z.eqb_eq in Hcode. subst status_code.
      destruct json as [response | cause]; cbn; [ | reflexivity ].
      destruct (check_response response) as [[ | first others] | e];
        destruct response; reflexivity.
    + destruct status_code as [ | p | p]; try reflexivity.
      do 8 (destruct p as [p | p | ]; try reflexivity).
      discriminate Hcode.
Qed.

(** One iteration with a client that fails with TelegramError only. *)
Lemma iteration_notifies (cfg : credentials) (w : world) (st : loop_state) :
  client_errors_only (bot w) ->
  result_of (iteration format_other str_exn cfg w st) = Return tt
  /\ sent (trace_of (iteration format_other str_exn cfg w st))
     = (if String.eqb (produced format_other str_exn cfg w st) (prev_msg st)
        then [] else [produced format_other str_exn cfg w st])
  /\ prev_msg (state_of (iteration format_other str_exn cfg w st))
     = produced format_other str_exn cfg w st
  /\ slept (trace_of (iteration format_other str_exn cfg w st))
     = [RETRY_PERIOD].
Proof.
  intros Hpolite.
  pose proof (next_message_quiet cfg w st) as (Hprev & Hsent & Hslept & _).
  unfold iteration, try_finally, try_except, try_body, on_error, seq, emit,
    get, modify, ret, any_exception, produced.
  destruct (next_message format_other cfg w st) as [[tn sn] rn].
  unfold trace_of, state_of, result_of in *.
  cbn [fst snd] in Hprev, Hsent, Hslept. cbn [fst snd]. rewrite <- Hprev.
  destruct rn as [m | e]; cbn.
  - destruct (String.eqb m (prev_msg sn)) eqn:Hsame; cbn.
    + apply String.eqb_eq in Hsame.
      rewrite !sent_app, !slept_app, Hsent, Hslept.
      repeat split; try reflexivity. now symmetry.
    + rewrite send_message_runs.
      destruct (bot w m) as [e | ] eqn:Hbot;
        [rewrite (Hpolite _ _ Hbot) | ]; cbn;
        rewrite !sent_app, !slept_app, Hsent, Hslept;
        repeat split; reflexivity.
  - destruct (String.eqb (FAILURE ++ str_exn e) (prev_msg sn)) eqn:Hsame; cbn.
    + apply String.eqb_eq in Hsame.
      rewrite !sent_app, !slept_app, Hsent, Hslept.
      repeat split; try reflexivity. now symmetry.
    + rewrite send_message_runs.
      destruct (bot w (FAILURE ++ str_exn e)) as [e' | ] eqn:Hbot;
        [rewrite (Hpolite _ _ Hbot) | ]; cbn;
        rewrite !sent_app, !slept_app, Hsent, Hslept;
        repeat split; reflexivity.
Qed.

(** Splitting an iteration into the cases of its two conditionals and of
    the client, for the facts that hold whatever the client does. *)
Ltac iteration_cases :=
  unfold iteration, try_finally, try_except, try_body, on_error, seq, emit,
    get, modify, ret, any_exception;
  match goal with
  | |- context [next_message ?f ?c ?w ?st] =>
      destruct (next_message f c w st) as [[tn sn] [m | e]]
  end;
  unfold trace_of, state_of, result_of in *; cbn [fst snd] in *; cbn;
  repeat
    (rewrite ?send_message_runs;
     match goal with
     | |- context [if negb ?b then _ else _] => destruct b; cbn
     | |- context [match bot ?w ?m with _ => _ end] =>
         destruct (bot w m) as [? | ]; cbn
     | |- context [if is_telegram_error ?e then _ else _] =>
         destruct (is_telegram_error e); cbn
     end).

(** Every iteration ends with the sleep, and sleeps once, whatever the
    client does and whether the loop survives it. *)
Lemma iteration_sleeps (cfg : credentials) (w : world) (st : loop_state) :
  exists before,
    trace_of (iteration format_other str_exn cfg w st)
    = (before ++ [Sleep RETRY_PERIOD])%list
    /\ slept before = [].
Proof.
  pose proof (next_message_quiet cfg w st) as (_ & _ & Hslept & _).
  iteration_cases;
    (eexists; split; [reflexivity | ]);
    rewrite ?slept_app, Hslept; reflexivity.
Qed.

(** The cursor and the request of an iteration are those of lines
    152-160. *)
Lemma iteration_cursor (cfg : credentials) (w : world) (st : loop_state) :
  load (state_of (iteration format_other str_exn cfg w st))
  = load (state_of (next_message format_other cfg w st))
  /\ requested (trace_of (iteration format_other str_exn cfg w st))
     = [py_or (load st) (VInt (time_ns (now_fetch w)))].
Proof.
  pose proof (next_message_quiet cfg w st) as (_ & _ & _ & Hreq).
  iteration_cases; rewrite ?requested_app, Hreq; split; reflexivity.
Qed.

(** An error of lines 152-160 is logged with the diagnostic text. *)
Lemma iteration_logs_error (cfg : credentials) (w : world) (st : loop_state)
    (error : exn) :
  result_of (next_message format_other cfg w st) = Raise error ->
  In (Log ERROR (FAILURE ++ str_exn error))
     (trace_of (iteration format_other str_exn cfg w st)).
Proof.
  iteration_cases; intros He; try discriminate He;
    injection He as ->; rewrite ?in_app_iff; cbn; tauto.
Qed.

(** *** Deduplication of a list of messages *)

Lemma last_cons (m d : string) (l : list string) :
  last (m :: l) d = last l m.
Proof.
  revert m d. induction l as [ | x l IH]; intros m d; [reflexivity | ].
  change (last (m :: x :: l) d) with (last (x :: l) d).
  rewrite (IH x d), (IH x m). reflexivity.
Qed.

Lemma stutter_free_dedup (prev : string) (l : list string) :
  stutter_free prev (dedup_from prev l) = true.
Proof.
  revert prev. induction l as [ | m l IH]; intros prev; cbn.
  - reflexivity.
  - destruct (String.eqb m prev) eqn:Hsame; cbn.
    + apply IH.
    + rewrite Hsame. apply IH.
Qed.

Lemma last_dedup (prev : string) (l : list string) :
  last (dedup_from prev l) prev = last l prev.
Proof.
  revert prev. induction l as [ | m l IH]; intros prev.
  - reflexivity.
  - cbn [dedup_from]. rewrite (last_cons m prev l).
    destruct (String.eqb m prev) eqn:Hsame.
    + apply String.eqb_eq in Hsame. subst m. apply IH.
    + rewrite last_cons. apply IH.
Qed.

(** *** Runs of the loop *)

(** With clients that fail with TelegramError only, the loop gets
    through all its iterations; it sends the messages of the iterations
    deduplicated against [prev_msg], ends with [prev_msg] at the last
    message, and sleeps once per iteration. *)
Lemma while_true_notifies (cfg : credentials) (ws : list world)
    (st : loop_state) :
  Forall (fun w => client_errors_only (bot w)) ws ->
  result_of (while_true format_other str_exn cfg ws st) = Return tt
  /\ sent (trace_of (while_true format_other str_exn cfg ws st))
     = dedup_from (prev_msg st) (messages format_other str_exn cfg ws st)
  /\ prev_msg (state_of (while_true format_other str_exn cfg ws st))
     = last (messages format_other str_exn cfg ws st) (prev_msg st)
  /\ slept (trace_of (while_true format_other str_exn cfg ws st))
     = repeat RETRY_PERIOD (length ws).
Proof.
  intros Hpolite. revert st.
  induction Hpolite as [ | w rest Hw _ IH]; intros st.
  - repeat split; reflexivity.
  - destruct (iteration_notifies cfg w st Hw) as (Hr & Hsent & Hprev & Hslept).
    cbn [while_true messages length repeat]. unfold seq.
    destruct (iteration format_other str_exn cfg w st) as [[t1 s1] r1].
    unfold trace_of, state_of, result_of in *. cbn [fst snd] in *.
    subst r1.
    destruct (IH s1) as (Hr' & Hsent' & Hprev' & Hslept').
    destruct (while_true format_other str_exn cfg rest s1) as [[t2 s2] r2].
    cbn [fst snd] in *. subst r2.
    rewrite sent_app, slept_app, Hsent, Hslept, Hsent', Hslept', Hprev',
      Hprev, last_cons.
    repeat split; try reflexivity.
    cbn [dedup_from].
    destruct (String.eqb _ (prev_msg st)) eqn:Hsame; [ | reflexivity ].
    apply String.eqb_eq in Hsame. rewrite Hsame. reflexivity.
Qed.
(** C3, as amended: with a client that fails with TelegramError only,
    of two consecutive iterations that produce the same message the second
    sends nothing, so the pair sends it at most once: once when it differs
    from [prev_msg] before the pair, not at all when it equals it.  Over
    any run the loop sends the messages of its iterations deduplicated
    against [prev_msg]; [prev_msg] ends as the message of the last
    iteration, which is the text of the last send of the loop when there
    was one; and no text is sent twice in a row. *)
Theorem notifications_deduplicated (cfg : credentials) (st : loop_state)
    (w1 w2 : world) (ws : list world) :
  client_errors_only (bot w1) ->
  client_errors_only (bot w2) ->
  produced format_other str_exn cfg w2
    (state_of (iteration format_other str_exn cfg w1 st))
  = produced format_other str_exn cfg w1 st ->
  Forall (fun w => client_errors_only (bot w)) ws ->
  (sent (trace_of (while_true format_other str_exn cfg [w1; w2] st))
   = (if String.eqb (produced format_other str_exn cfg w1 st) (prev_msg st)
      then [] else [produced format_other str_exn cfg w1 st])
   /\ sent (trace_of (iteration format_other str_exn cfg w2
                        (state_of (iteration format_other str_exn cfg w1 st))))
      = []
   /\ prev_msg (state_of (while_true format_other str_exn cfg [w1; w2] st))
      = produced format_other str_exn cfg w1 st)
  /\ (sent (trace_of (while_true format_other str_exn cfg ws st))
      = dedup_from (prev_msg st) (messages format_other str_exn cfg ws st)
      /\ prev_msg (state_of (while_true format_other str_exn cfg ws st))
         = last (messages format_other str_exn cfg ws st) (prev_msg st)
      /\ prev_msg (state_of (while_true format_other str_exn cfg ws st))
         = last (sent (trace_of (while_true format_other str_exn cfg ws st)))
             (prev_msg st)
      /\ stutter_free (prev_msg st)
           (sent (trace_of (while_true format_other str_exn cfg ws st)))
         = true).
Proof.
  intros H1 H2 Hsame Hws. split.
  - destruct (while_true_notifies cfg [w1; w2] st) as (_ & Hsent & Hprev & _).
    { repeat constructor; assumption. }
    destruct (iteration_notifies cfg w1 st H1) as (_ & _ & Hprev1 & _).
    destruct (iteration_notifies cfg w2
                (state_of (iteration format_other str_exn cfg w1 st)) H2)
      as (_ & Hsent2 & _ & _).
    rewrite Hsent, Hprev, Hsent2. cbn [messages dedup_from last].
    rewrite Hsame, Hprev1, String.eqb_refl.
    repeat split.
    destruct (String.eqb _ (prev_msg st)); reflexivity.
  - destruct (while_true_notifies cfg ws st Hws) as (_ & Hsent & Hprev & _).
    rewrite Hsent, Hprev, last_dedup.
    repeat split. apply stutter_free_dedup.
Qed.

(** C4: after a fetch that returns a dict the cursor is the value under
    [current_date], or the current time in seconds when the key is
    absent, whatever the rest of the iteration does; the next iteration
    requests [load or time.time_ns()], so for [current_date = T] it
    requests from a time that is at least [T]. *)
Theorem cursor_follows_current_date (cfg : credentials) (st : loop_state)
    (w1 w2 : world) (fields : list (string * value)) :
  result_of (get_api_answer cfg w1 (load st) st) = Return (VDict fields) ->
  0 <= now_fetch w2 ->
  load (state_of (iteration format_other str_exn cfg w1 st))
  = cursor_after fields w1
  /\ requested
       (trace_of (iteration format_other str_exn cfg w2
                    (state_of (iteration format_other str_exn cfg w1 st))))
     = [py_or (cursor_after fields w1) (VInt (time_ns (now_fetch w2)))]
  /\ match lookup "current_date" fields with
     | Some (VInt T) =>
         load (state_of (iteration format_other str_exn cfg w1 st)) = VInt T
         /\ exists c,
              requested
                (trace_of (iteration format_other str_exn cfg w2
                   (state_of (iteration format_other str_exn cfg w1 st))))
              = [VInt c]
              /\ T <= c
     | Some other =>
         load (state_of (iteration format_other str_exn cfg w1 st)) = other
     | None =>
         load (state_of (iteration format_other str_exn cfg w1 st))
         = VInt (int_time (now_main w1))
     end.
Proof.
  intros Hfetch Hclock.
  assert (Hload : load (state_of (iteration format_other str_exn cfg w1 st))
                  = cursor_after fields w1).
  { destruct (iteration_cursor cfg w1 st) as [-> _].
    rewrite next_message_cursor.
    rewrite get_api_answer_result in Hfetch.
    destruct (http w1) as [cause | status_code reason text json];
      [discriminate Hfetch | ].
    destruct (status_code =? 200) eqn:Hcode; [ | discriminate Hfetch ].
    apply Z.eqb_eq in Hcode. subst status_code.
    destruct json; [ | discriminate Hfetch ].
    injection Hfetch as ->. reflexivity. }
  destruct (iteration_cursor cfg w2
              (state_of (iteration format_other str_exn cfg w1 st)))
    as [_ Hreq].
  rewrite Hreq, Hload. repeat split.
  unfold cursor_after.
  destruct (lookup "current_date" fields) as [[ | | T | | | | ] | ];
    try reflexivity.
  split; [reflexivity | ].
  unfold py_or. cbn [truthy].
  destruct (T =? 0) eqn:HT; cbn [negb].
  - apply Z.eqb_eq in HT. subst T.
    exists (time_ns (now_fetch w2)). split; [reflexivity | exact Hclock].
  - exists T. split; [reflexivity | lia].
Qed.

(** C7, as amended: with a Telegram client that delivers or fails with
    TelegramError only, an error raised by lines 152-160 (fetch, cursor,
    validate, translate) is caught: the iteration logs the diagnostic that
    embeds [str(error)], notifies it unless it equals [prev_msg], stores
    it in [prev_msg], sleeps RETRY_PERIOD as its last act and returns to
    the loop, which with such clients gets through any number of
    iterations, sleeping once in each.  Every iteration, whatever happens
    in it and whatever the client does, ends with that one sleep. *)
Theorem errors_do_not_stop_the_loop (cfg : credentials) (st : loop_state)
    (w : world) (error : exn) (ws : list world) :
  client_errors_only (bot w) ->
  result_of (next_message format_other cfg w st) = Raise error ->
  Forall (fun w' => client_errors_only (bot w')) ws ->
  (result_of (iteration format_other str_exn cfg w st) = Return tt
   /\ In (Log ERROR (FAILURE ++ str_exn error))
        (trace_of (iteration format_other str_exn cfg w st))
   /\ sent (trace_of (iteration format_other str_exn cfg w st))
      = (if String.eqb (FAILURE ++ str_exn error) (prev_msg st)
         then [] else [FAILURE ++ str_exn error])
   /\ prev_msg (state_of (iteration format_other str_exn cfg w st))
      = FAILURE ++ str_exn error)
  /\ (forall w' st',
        exists before,
          trace_of (iteration format_other str_exn cfg w' st')
          = (before ++ [Sleep RETRY_PERIOD])%list
          /\ slept before = [])
  /\ (result_of (while_true format_other str_exn cfg ws st) = Return tt
      /\ slept (trace_of (while_true format_other str_exn cfg ws st))
         = repeat RETRY_PERIOD (length ws)).
Proof.
  intros Hw Herror Hws. repeat split.
  - apply (iteration_notifies cfg w st Hw).
  - apply iteration_logs_error, Herror.
  - destruct (iteration_notifies cfg w st Hw) as (_ & Hsent & _).
    rewrite Hsent. unfold produced. rewrite Herror. reflexivity.
  - destruct (iteration_notifies cfg w st Hw) as (_ & _ & Hprev & _).
    rewrite Hprev. unfold produced. rewrite Herror. reflexivity.
  - intros w' st'. apply iteration_sleeps.
  - apply (while_true_notifies cfg ws st Hws).
  - apply (while_true_notifies cfg ws st Hws).
Qed.

(** *** Further properties of check_response *)

(** What check_response returns, it returns on a dict. *)
Lemma check_response_returns (r : value) (items : list value) :
  check_response r = Return items ->
  exists fields,
    r = VDict fields
    /\ lookup "homeworks" fields = Some (VList items)
    /\ has_key "current_date" fields = true.
Proof.
  destruct r as [ | b | n | x | s | l | fields ]; cbn;
    try discriminate.
  - destruct (substring_of "homeworks" s); discriminate.
  - destruct (existsb (eq_str "homeworks") l); discriminate.
  - unfold check_response. cbn. unfold has_key.
    destruct (lookup "homeworks" fields) as [hw | ] eqn:Hhw; cbn;
      [ | discriminate ].
    destruct hw; try discriminate.
    destruct (lookup "current_date" fields) eqn:Hdate; cbn;
      [ | discriminate ].
    intros H. injection H as <-. exists fields.
    rewrite Hdate. repeat split. exact Hhw.
Qed.

(** X1: check_response accepts exactly the dicts that have a list under
    [homeworks] and a key [current_date], and returns that list as it
    is, empty or not. *)
Theorem check_response_accepts (r : value) (items : list value) :
  check_response r = Return items <->
  exists fields,
    r = VDict fields
    /\ lookup "homeworks" fields = Some (VList items)
    /\ has_key "current_date" fields = true.
Proof.
  split; [apply check_response_returns | ].
  intros (fields & -> & Hhw & Hdate).
  unfold check_response. cbn. unfold has_key in *. rewrite Hhw. cbn.
  destruct (lookup "current_date" fields); [reflexivity | discriminate].
Qed.

(** X2: whatever the response, the only exception that leaves
    check_response is a TypeError: the [KeyError] of the subscript
    [response['homeworks']] cannot happen. *)
Theorem check_response_raises_type_error_only (r : value) :
  match check_response r with
  | Return _ => True
  | Raise e => exists m, e = TypeError m
  end.
Proof.
  destruct r as [ | b | n | x | s | l | fields ];
    try (eexists; reflexivity).
  - unfold check_response. cbn.
    destruct (substring_of "homeworks" s); cbn; eexists; reflexivity.
  - unfold check_response. cbn.
    destruct (existsb (eq_str "homeworks") l); cbn; eexists; reflexivity.
  - unfold check_response. cbn. unfold has_key.
    destruct (lookup "homeworks" fields) as [hw | ]; cbn;
      [ | eexists; reflexivity ].
    destruct hw; try (eexists; reflexivity).
    destruct (lookup "current_date" fields); cbn;
      [exact I | eexists; reflexivity].
Qed.

(** X3: the message "Response is not a dictionary" is reported exactly for
    a response that is not a dict and passes the membership test: a list
    with the string [homeworks] among its items, or a string that
    contains it. *)
Theorem check_response_not_a_dictionary (r : value) :
  check_response r = Raise (TypeError NOT_A_DICTIONARY) <->
  is_dict r = false /\ py_in "homeworks" r = Return true.
Proof.
  split.
  - destruct r as [ | b | n | x | s | l | fields ]; cbn;
      try discriminate.
    + destruct (substring_of "homeworks" s); cbn; [auto | discriminate].
    + destruct (existsb (eq_str "homeworks") l); cbn; [auto | discriminate].
    + unfold check_response. cbn. unfold has_key.
      destruct (lookup "homeworks" fields) as [hw | ]; cbn;
        [ | discriminate ].
      destruct hw; try discriminate.
      destruct (lookup "current_date" fields); cbn; discriminate.
  - intros [Hdict Hin].
    destruct r as [ | b | n | x | s | l | fields ]; try discriminate;
      unfold check_response; rewrite Hin; reflexivity.
Qed.

(** *** Further properties of parse_status *)

(** What parse_status returns, it returns on a dict with a name and a
    status of the table. *)
Lemma parse_status_returns (v : value) (m : string) :
  parse_status format_other v = Return m ->
  exists record name status verdict,
    v = VDict record
    /\ lookup "homework_name" record = Some name
    /\ lookup "status" record = Some (VStr status)
    /\ table_get status HOMEWORK_VERDICTS = Some verdict
    /\ m = STATUS_CHANGED ++ dq
           ++ match name with
              | VStr text => text
              | other => format_other other
              end
           ++ dq ++ ". " ++ verdict.
Proof.
  destruct v as [ | b | n | x | s | l | record ]; cbn; try discriminate.
  - unfold parse_status. cbn.
    destruct (substring_of "homework_name" s); discriminate.
  - unfold parse_status. cbn.
    destruct (existsb (eq_str "homework_name") l); discriminate.
  - unfold parse_status. cbn. unfold has_key.
    destruct (lookup "homework_name" record) as [name | ] eqn:Hname; cbn;
      [ | discriminate ].
    destruct (lookup "status" record) as [status | ] eqn:Hstatus; cbn;
      [ | discriminate ].
    destruct status; cbn; try discriminate.
    destruct (table_get s HOMEWORK_VERDICTS) as [verdict | ] eqn:Hverdict;
      pose proof Hverdict as Hif; cbn in Hif; rewrite Hif;
      [ | discriminate ].
    intros H. injection H as <-.
    exists record, name, s, verdict. repeat split; assumption.
Qed.

(** X4: parse_status returns a message exactly on a dict that has
    [homework_name] and whose [status] is a string of the verdict table;
    the message is then the formatted one, with the name between the
    quotes (as it is when it is a string) and the verdict of the status
    after it.  In particular it never returns on a homework that is not
    a dict. *)
Theorem parse_status_succeeds (v : value) (m : string) :
  parse_status format_other v = Return m <->
  exists record name status verdict,
    v = VDict record
    /\ lookup "homework_name" record = Some name
    /\ lookup "status" record = Some (VStr status)
    /\ verdict_of_status status = Some verdict
    /\ m = "Изменился статус проверки работы " ++ dq
           ++ match name with
              | VStr text => text
              | other => format_other other
              end
           ++ dq ++ ". " ++ verdict.
Proof.
  split.
  - intros H. apply parse_status_returns in H.
    destruct H as (record & name & status & verdict & Hv & Hname & Hstatus
                   & Hverdict & Hm).
    rewrite table_get_verdicts in Hverdict.
    exists record, name, status, verdict. repeat split; assumption.
  - intros (record & name & status & verdict & -> & Hname & Hstatus
            & Hverdict & ->).
    rewrite <- table_get_verdicts in Hverdict.
    unfold parse_status. cbn. unfold has_key. rewrite Hname. cbn.
    rewrite Hstatus. cbn.
    cbn in Hverdict. rewrite Hverdict. reflexivity.
Qed.

(** *** Further properties of get_api_answer *)

(** X5: whether it returns or raises, a call of get_api_answer leaves
    the same three events: the opening log entry, one GET on the endpoint
    with the OAuth header and [load or time.time_ns()] as [from_date], and
    the closing log entry of the [finally]. *)
Theorem get_api_answer_trace {S : Type} (cfg : credentials) (w : world)
    (cursor : value) (s : S) :
  trace_of (get_api_answer cfg w cursor s)
  = [ Log INFO BEGIN_REQUEST;
      HttpGet ENDPOINT (AUTHORIZATION cfg)
        (py_or cursor (VInt (time_ns (now_fetch w))));
      Log INFO GOT_RESPONSE ].
Proof.
  unfold get_api_answer, request, try_finally, try_except, seq, emit, raise,
    lift, trace_of.
  destruct (http w) as [cause | status_code reason text json]; cbn.
  - reflexivity.
  - destruct (status_code =? 200); cbn; [destruct json | ]; reflexivity.
Qed.

(** X6: get_api_answer returns a value exactly when the reply has status
    200 and its body decodes, and the value is the decoded body, of
    whatever JSON type. *)
Theorem get_api_answer_returns {S : Type} (cfg : credentials) (w : world)
    (cursor : value) (s : S) (decoded : value) :
  result_of (get_api_answer cfg w cursor s) = Return decoded <->
  exists reason text, http w = Response 200 reason text (Return decoded).
Proof.
  rewrite get_api_answer_result. split.
  - destruct (http w) as [cause | status_code reason text json];
      [discriminate | ].
    destruct (status_code =? 200) eqn:Hcode; [ | discriminate ].
    apply Z.eqb_eq in Hcode. subst status_code.
    destruct json; [ | discriminate ].
    intros H. injection H as ->. eauto.
  - intros (reason & text & ->). reflexivity.
Qed.

(** *** Further properties of an iteration *)

(** The result of lines 152-160 is the composition of the four steps. *)
Lemma next_message_result (cfg : credentials) (w : world) (st : loop_state) :
  result_of (next_message format_other cfg w st)
  = (response <- result_of (get_api_answer cfg w (load st) st) ;;
     _ <- py_get_default response "current_date"
            (VInt (int_time (now_main w))) ;;
     homeworks <- check_response response ;;
     match homeworks with
     | first :: _ => parse_status format_other first
     | [] => Return NO_NEW_STATUS
     end).
Proof.
  unfold next_message, get_api_answer, request, try_finally, try_except, seq,
    emit, raise, lift, get, modify, ret, result_of.
  destruct (http w) as [cause | status_code reason text json]; cbn.
  - reflexivity.
  - destruct (status_code =? 200); cbn; [ | reflexivity ].
    destruct json as [response | cause]; cbn; [ | reflexivity ].
    destruct (py_get_default response "current_date" _) as [cursor | e]; cbn;
      [ | reflexivity ].
    destruct (check_response response) as [[ | first others] | e]; cbn;
      reflexivity.
Qed.

(** X7: when the fetched response passes check_response, the message is
    "No new status" for an empty list and otherwise what parse_status
    makes of the first homework: the homeworks after the first play no
    part. *)
Theorem message_from_first_homework (cfg : credentials) (w : world)
    (st : loop_state) (response : value) (homeworks : list value) :
  result_of (get_api_answer cfg w (load st) st) = Return response ->
  check_response response = Return homeworks ->
  result_of (next_message format_other cfg w st)
  = match homeworks with
    | [] => Return NO_NEW_STATUS
    | first :: _ => parse_status format_other first
    end.
Proof.
  intros Hfetch Hcheck.
  destruct (check_response_returns response homeworks Hcheck)
    as (fields & -> & _).
  rewrite next_message_result, Hfetch. cbn [bind py_get_default].
  rewrite Hcheck. destruct homeworks; reflexivity.
Qed.

(** X8: a decoded response that is not a dict never reaches
    check_response: [response.get] raises AttributeError first, so the
    diagnostic of such a response is never one of the messages of
    check_response. *)
Theorem non_dict_response_fails_at_get (cfg : credentials) (w : world)
    (st : loop_state) (response : value) :
  result_of (get_api_answer cfg w (load st) st) = Return response ->
  is_dict response = false ->
  result_of (next_message format_other cfg w st)
  = Raise (no_attribute response "get")
  /\ produced format_other str_exn cfg w st
     = FAILURE ++ str_exn (no_attribute response "get")
  /\ load (state_of (iteration format_other str_exn cfg w st)) = load st.
Proof.
  intros Hfetch Hdict.
  assert (Hresult : result_of (next_message format_other cfg w st)
                    = Raise (no_attribute response "get")).
  { rewrite next_message_result, Hfetch.
    destruct response; try discriminate Hdict; reflexivity. }
  split; [exact Hresult | split].
  - unfold produced. rewrite Hresult. reflexivity.
  - destruct (iteration_cursor cfg w st) as [-> _].
    rewrite next_message_cursor.
    rewrite get_api_answer_result in Hfetch.
    destruct (http w) as [cause | status_code reason text json];
      [reflexivity | ].
    destruct (status_code =? 200) eqn:Hcode; [ | discriminate Hfetch ].
    destruct json; [ | discriminate Hfetch ].
    injection Hfetch as ->.
    destruct status_code as [ | p | p]; try reflexivity.
    do 8 (destruct p as [p | p | ]; try reflexivity).
    destruct response; try discriminate Hdict; reflexivity.
Qed.

(** X9: when the fetch fails, the cursor stays where it was; the error is
    an IncorrectAPIResponse around its cause, and the message of the
    iteration is the diagnostic of that error. *)
Theorem failed_fetch_keeps_cursor (cfg : credentials) (w : world)
    (st : loop_state) (error : exn) :
  result_of (get_api_answer cfg w (load st) st) = Raise error ->
  load (state_of (iteration format_other str_exn cfg w st)) = load st
  /\ (exists cause, error = IncorrectAPIResponse BEGIN_REQUEST (Some cause))
  /\ produced format_other str_exn cfg w st = FAILURE ++ str_exn error.
Proof.
  intros Hfetch. split; [ | split ].
  - destruct (iteration_cursor cfg w st) as [-> _].
    rewrite next_message_cursor.
    rewrite get_api_answer_result in Hfetch.
    destruct (http w) as [cause | status_code reason text json];
      [reflexivity | ].
    destruct (status_code =? 200) eqn:Hcode.
    + destruct json; [discriminate Hfetch | ].
      destruct status_code as [ | p | p]; try reflexivity.
      do 8 (destruct p as [p | p | ]; try reflexivity).
    + destruct status_code as [ | p | p]; try reflexivity.
      do 8 (destruct p as [p | p | ]; try reflexivity).
      discriminate Hcode.
  - rewrite get_api_answer_result in Hfetch.
    destruct (http w) as [cause | status_code reason text json].
    + injection Hfetch as <-. eauto.
    + destruct (status_code =? 200).
      * destruct json; [discriminate Hfetch | ].
        injection Hfetch as <-. eauto.
      * injection Hfetch as <-. eauto.
  - unfold produced. rewrite next_message_result, Hfetch. reflexivity.
Qed.

(** X10: the cursor is moved before the response is checked: when the
    fetch returns a dict and check_response or parse_status then raises,
    the iteration reports the diagnostic and the cursor has moved all the
    same. *)
Theorem failure_after_fetch_moves_cursor (cfg : credentials) (w : world)
    (st : loop_state) (fields : list (string * value)) (error : exn) :
  result_of (get_api_answer cfg w (load st) st) = Return (VDict fields) ->
  result_of (next_message format_other cfg w st) = Raise error ->
  load (state_of (iteration format_other str_exn cfg w st))
  = cursor_after fields w
  /\ produced format_other str_exn cfg w st = FAILURE ++ str_exn error
  /\ In (Log ERROR (FAILURE ++ str_exn error))
        (trace_of (iteration format_other str_exn cfg w st)).
Proof.
  intros Hfetch Herror. split; [ | split ].
  - destruct (iteration_cursor cfg w st) as [-> _].
    rewrite next_message_cursor.
    rewrite get_api_answer_result in Hfetch.
    destruct (http w) as [cause | status_code reason text json];
      [discriminate Hfetch | ].
    destruct (status_code =? 200) eqn:Hcode; [ | discriminate Hfetch ].
    apply Z.eqb_eq in Hcode. subst status_code.
    destruct json; [ | discriminate Hfetch ].
    injection Hfetch as ->. reflexivity.
  - unfold produced. rewrite Herror. reflexivity.
  - apply iteration_logs_error, Herror.
Qed.

(** X11: an iteration makes exactly one request, and hands at most two
    texts to the Telegram client, whatever the client does. *)
Theorem iteration_calls (cfg : credentials) (w : world) (st : loop_state) :
  requested (trace_of (iteration format_other str_exn cfg w st))
  = [py_or (load st) (VInt (time_ns (now_fetch w)))]
  /\ (length (sent (trace_of (iteration format_other str_exn cfg w st)))
      <= 2)%nat.
Proof.
  split; [apply iteration_cursor | ].
  pose proof (next_message_quiet cfg w st) as (_ & Hsent & _ & _).
  iteration_cases; rewrite ?sent_app, Hsent; unfold sent; cbn; lia.
Qed.

(** X12: an exception of the client that is not a TelegramError, raised
    while the diagnostic of a failed iteration is sent, is not caught: the
    iteration still sleeps, [prev_msg] is not updated, and the loop ends
    there with that exception. *)
Theorem client_failure_in_handler_stops_loop (cfg : credentials) (w : world)
    (st : loop_state) (error e : exn) (rest : list world) :
  result_of (next_message format_other cfg w st) = Raise error ->
  String.eqb (FAILURE ++ str_exn error) (prev_msg st) = false ->
  bot w (FAILURE ++ str_exn error) = Some e ->
  is_telegram_error e = false ->
  result_of (iteration format_other str_exn cfg w st) = Raise e
  /\ prev_msg (state_of (iteration format_other str_exn cfg w st))
     = prev_msg st
  /\ slept (trace_of (iteration format_other str_exn cfg w st))
     = [RETRY_PERIOD]
  /\ while_true format_other str_exn cfg (w :: rest) st
     = iteration format_other str_exn cfg w st.
Proof.
  intros Herror Hnew Hbot Hother.
  pose proof (next_message_quiet cfg w st) as (Hprev & _ & Hslept & _).
  assert (Hrun : result_of (iteration format_other str_exn cfg w st) = Raise e
            /\ prev_msg (state_of (iteration format_other str_exn cfg w st))
               = prev_msg st
            /\ slept (trace_of (iteration format_other str_exn cfg w st))
               = [RETRY_PERIOD]).
  { unfold iteration, try_finally, try_except, try_body, on_error, seq, emit,
      get, modify, ret, any_exception.
    destruct (next_message format_other cfg w st) as [[tn sn] rn].
    unfold trace_of, state_of, result_of in *. cbn [fst snd] in *.
    subst rn. cbn. rewrite Hprev, Hnew. cbn.
    rewrite send_message_runs, Hbot, Hother. cbn.
    rewrite !slept_app, Hslept. repeat split. exact Hprev. }
  destruct Hrun as (Hr & Hp & Hs). repeat split; try assumption.
  cbn [while_true]. unfold seq.
  destruct (iteration format_other str_exn cfg w st) as [[t1 s1] r1].
  unfold result_of in Hr. cbn [snd] in Hr. subst r1. reflexivity.
Qed.

(** X13: when a status message that differs from [prev_msg] is handed
    to the client and the client raises an exception that is not a
    TelegramError, the loop catches it like any error of the iteration:
    the diagnostic of the client's exception is logged and, unless it
    equals [prev_msg], sent in the same iteration; provided the client
    delivers the diagnostic or fails on it with a TelegramError, the loop
    goes on, with the diagnostic, not the status message, as
    [prev_msg]. *)
Theorem unsent_status_is_reported (cfg : credentials) (w : world)
    (st : loop_state) (m : string) (e : exn) :
  result_of (next_message format_other cfg w st) = Return m ->
  String.eqb m (prev_msg st) = false ->
  bot w m = Some e ->
  is_telegram_error e = false ->
  (forall e', bot w (FAILURE ++ str_exn e) = Some e' ->
              is_telegram_error e' = true) ->
  result_of (iteration format_other str_exn cfg w st) = Return tt
  /\ In (Log ERROR (FAILURE ++ str_exn e))
        (trace_of (iteration format_other str_exn cfg w st))
  /\ sent (trace_of (iteration format_other str_exn cfg w st))
     = m :: (if String.eqb (FAILURE ++ str_exn e) (prev_msg st)
             then [] else [FAILURE ++ str_exn e])
  /\ prev_msg (state_of (iteration format_other str_exn cfg w st))
     = FAILURE ++ str_exn e.
Proof.
  intros Hm Hnew Hbot Hother Hdiag.
  pose proof (next_message_quiet cfg w st) as (Hprev & Hsent & _ & _).
  unfold iteration, try_finally, try_except, try_body, on_error, seq, emit,
    get, modify, ret, any_exception.
  destruct (next_message format_other cfg w st) as [[tn sn] rn].
  unfold trace_of, state_of, result_of in *. cbn [fst snd] in *.
  subst rn. cbn. rewrite Hprev, Hnew. cbn.
  rewrite send_message_runs, Hbot, Hother. cbn. rewrite Hprev.
  destruct (String.eqb (FAILURE ++ str_exn e) (prev_msg st)) eqn:Hsame; cbn.
  - apply String.eqb_eq in Hsame.
    rewrite !sent_app, Hsent, !in_app_iff.
    repeat split; try reflexivity.
    + cbn. tauto.
    + congruence.
  - rewrite send_message_runs.
    destruct (bot w (FAILURE ++ str_exn e)) as [e' | ] eqn:Hbot';
      [rewrite (Hdiag e' eq_refl) | ]; cbn;
      rewrite !sent_app, Hsent, !in_app_iff;
      repeat split; try reflexivity; cbn; tauto.
Qed.

(** *** The texts of the messages *)

(** A message returned by lines 152-160 is "No new status" or begins
    with the text of a status change. *)
Lemma returned_message_shape (cfg : credentials) (w : world)
    (st : loop_state) (m : string) :
  result_of (next_message format_other cfg w st) = Return m ->
  m = NO_NEW_STATUS \/ exists rest, m = STATUS_CHANGED ++ rest.
Proof.
  rewrite next_message_result.
  destruct (result_of (get_api_answer cfg w (load st) st))
    as [response | e]; cbn [bind]; [ | discriminate ].
  destruct (py_get_default response "current_date" _); cbn [bind];
    [ | discriminate ].
  destruct (check_response response) as [[ | first others] | e]; cbn [bind];
    [ | | discriminate ].
  - intros H. injection H as <-. left. reflexivity.
  - intros H. apply parse_status_returns in H.
    destruct H as (record & name & status & verdict & _ & _ & _ & _ & ->).
    right. eexists. reflexivity.
Qed.

Lemma failure_differs_from_returned (x m : string) :
  m = NO_NEW_STATUS \/ (exists rest, m = STATUS_CHANGED ++ rest) ->
  String.eqb (FAILURE ++ x) m = false.
Proof.
  intros [-> | [rest ->]]; apply String.eqb_neq; unfold FAILURE; cbn;
    discriminate.
Qed.

Lemma returned_not_empty (m : string) :
  m = NO_NEW_STATUS \/ (exists rest, m = STATUS_CHANGED ++ rest) ->
  String.eqb m EmptyString = false.
Proof.
  intros [-> | [rest ->]]; apply String.eqb_neq; cbn; discriminate.
Qed.

Lemma failure_not_empty (x : string) :
  String.eqb (FAILURE ++ x) EmptyString = false.
Proof.
  apply String.eqb_neq. unfold FAILURE. cbn. discriminate.
Qed.

(** The message of an iteration is never the empty string. *)
Lemma produced_not_empty (cfg : credentials) (w : world) (st : loop_state) :
  String.eqb (produced format_other str_exn cfg w st) EmptyString = false.
Proof.
  unfold produced.
  destruct (result_of (next_message format_other cfg w st)) as [m | e]
    eqn:Hresult.
  - apply returned_not_empty, (returned_message_shape cfg w st), Hresult.
  - apply failure_not_empty.
Qed.

(** X14: with Telegram clients that deliver or fail with TelegramError
    only, a change between success and failure is notified: of two
    consecutive iterations, one with a message and one with an error (in
    either order), the second sends its message, because a diagnostic
    never equals a status message or "No new status". *)
Theorem change_of_outcome_notifies (cfg : credentials) (st : loop_state)
    (w1 w2 : world) :
  client_errors_only (bot w1) ->
  client_errors_only (bot w2) ->
  match
    result_of (next_message format_other cfg w1 st),
    result_of (next_message format_other cfg w2
                 (state_of (iteration format_other str_exn cfg w1 st)))
  with
  | Return _, Raise _ | Raise _, Return _ =>
      sent (trace_of (iteration format_other str_exn cfg w2
                        (state_of (iteration format_other str_exn cfg w1 st))))
      = [produced format_other str_exn cfg w2
           (state_of (iteration format_other str_exn cfg w1 st))]
  | _, _ => True
  end.
Proof.
  intros H1 H2.
  destruct (iteration_notifies cfg w1 st H1) as (_ & _ & Hprev1 & _).
  destruct (iteration_notifies cfg w2
              (state_of (iteration format_other str_exn cfg w1 st)) H2)
    as (_ & Hsent2 & _ & _).
  rewrite Hsent2, Hprev1. unfold produced.
  destruct (result_of (next_message format_other cfg w1 st)) as [m1 | e1]
    eqn:Hr1;
    destruct (result_of (next_message format_other cfg w2 _)) as [m2 | e2]
      eqn:Hr2; try exact I.
  - rewrite failure_differs_from_returned; [reflexivity | ].
    apply (returned_message_shape cfg w1 st), Hr1.
  - rewrite String.eqb_sym, failure_differs_from_returned; [reflexivity | ].
    eapply returned_message_shape, Hr2.
Qed.

(** *** Further properties of main *)

(** With the three credentials and a client that fails with TelegramError
    only, main gets through its startup and runs the loop from the
    startup time and the empty [prev_msg]. *)
Lemma main_started (cfg : credentials) (now : instant) (client : bot_client)
    (ws : list world) :
  forallb token_set
    [PRACTICUM_TOKEN cfg; TELEGRAM_TOKEN cfg; TELEGRAM_CHAT_ID cfg] = true ->
  client_errors_only client ->
  exists t_start,
    sent t_start = [START_MESSAGE]
    /\ requested t_start = []
    /\ fst (main format_other str_exn cfg now client ws)
       = (t_start
          ++ trace_of (while_true format_other str_exn cfg ws
                         {| load := VInt (int_time now);
                            prev_msg := EmptyString |}))%list.
Proof.
  intros Htokens Hclient.
  unfold main, check_tokens, seq, emit, ret. cbn [fst snd].
  cbn in Htokens. cbn. rewrite Htokens.
  rewrite send_message_runs. unfold trace_of.
  destruct (client START_MESSAGE) as [e | ] eqn:Hsend;
    [rewrite (Hclient _ _ Hsend) | ]; cbn;
    destruct (while_true format_other str_exn cfg ws _) as [[tw sw] rw];
    destruct rw; cbn;
    match goal with
    | |- exists t, _ /\ _ /\ (?a :: ?b :: ?c :: ?d :: ?e :: _) = _ =>
        exists [a; b; c; d; e]
    end;
    repeat split; reflexivity.
Qed.

(** X15: with the three credentials set and Telegram clients (at
    startup and in the iteration) that deliver or fail with TelegramError
    only, the first iteration of main notifies: after the startup
    notification [prev_msg] is empty and no message of an iteration is,
    so the texts sent by main run for one iteration are the startup
    notification and the message of that iteration. *)
Theorem first_iteration_notifies (cfg : credentials) (now : instant)
    (client : bot_client) (w : world) :
  forallb token_set
    [PRACTICUM_TOKEN cfg; TELEGRAM_TOKEN cfg; TELEGRAM_CHAT_ID cfg] = true ->
  client_errors_only client ->
  client_errors_only (bot w) ->
  sent (fst (main format_other str_exn cfg now client [w]))
  = [START_MESSAGE;
     produced format_other str_exn cfg w
       {| load := VInt (int_time now); prev_msg := EmptyString |}].
Proof.
  intros Htokens Hclient Hw.
  destruct (main_started cfg now client [w] Htokens Hclient)
    as (t_start & Hsent & _ & ->).
  destruct (while_true_notifies cfg [w]
              {| load := VInt (int_time now); prev_msg := EmptyString |})
    as (_ & Hloop & _).
  { repeat constructor. exact Hw. }
  rewrite sent_app, Hsent, Hloop. cbn [messages dedup_from prev_msg].
  rewrite produced_not_empty. reflexivity.
Qed.

(** X16: the first request of main asks from the startup time in whole
    seconds, provided that time is not second 0 of the epoch. *)
Theorem first_request_from_startup_time (cfg : credentials) (now : instant)
    (client : bot_client) (w : world) (rest : list world) :
  forallb token_set
    [PRACTICUM_TOKEN cfg; TELEGRAM_TOKEN cfg; TELEGRAM_CHAT_ID cfg] = true ->
  client_errors_only client ->
  int_time now <> 0 ->
  hd_error (requested (fst (main format_other str_exn cfg now client
                              (w :: rest))))
  = Some (VInt (int_time now)).
Proof.
  intros Htokens Hclient Hnow.
  destruct (main_started cfg now client (w :: rest) Htokens Hclient)
    as (t_start & _ & Hreq & ->).
  rewrite requested_app, Hreq. cbn [app while_true]. unfold seq.
  pose proof (iteration_cursor cfg w
                {| load := VInt (int_time now); prev_msg := EmptyString |})
    as [_ Hfirst].
  destruct (iteration format_other str_exn cfg w _) as [[t1 s1] r1].
  unfold trace_of in *. cbn [fst snd] in *.
  assert (Hhead : hd_error (requested t1) = Some (VInt (int_time now))).
  { rewrite Hfirst. unfold py_or. cbn [truthy load].
    apply Z.eqb_neq in Hnow. rewrite Hnow. reflexivity. }
  destruct r1.
  - destruct (while_true format_other str_exn cfg rest s1) as [[t2 s2] r2].
    cbn [fst]. rewrite requested_app.
    destruct (requested t1); [discriminate Hhead | exact Hhead].
  - exact Hhead.
Qed.

End Properties.

(** ** The properties on the sample data *)

Import Samples.

Lemma delivering_errors_only : client_errors_only delivering.
Proof.
  intros text e H. discriminate H.
Defined.

(** Scenario A passes the four checks. *)
Lemma check_response_source_order_witness :
  supports_in (VDict response_A) = true
  /\ check_response (VDict response_A) = Return [VDict hw1].
Proof.
  split; [reflexivity | ].
  destruct (check_response_source_order (VDict response_A) eq_refl)
    as (fields & items & Hr & Hhw & Hok).
  injection Hr as <-. rewrite Hok. f_equal.
  injection Hhw as <-. reflexivity.
Defined.

(** Scenario A gives the message of the specification, and a record
    with another name and status gives the message with that name. *)
Lemma parse_status_translate_witness :
  parse_status show_value (VDict hw1)
  = Return ("Изменился статус проверки работы " ++ dq ++ "hw1" ++ dq
            ++ ". Работа проверена: ревьюеру всё понравилось. Ура!")
  /\ parse_status show_value (VDict MoreSamples.hw2)
     = Return ("Изменился статус проверки работы " ++ dq ++ "hw2" ++ dq
               ++ ". Работа проверена: у ревьюера есть замечания.").
Proof.
  rewrite (parse_status_translate show_value hw1 (fun _ => eq_refl)).
  rewrite (parse_status_translate show_value MoreSamples.hw2
             (fun _ => eq_refl)).
  split; reflexivity.
Defined.

(** Scenario B twice from the start: one notification; and a longer run
    through scenarios A, B, B, D, D sends three. *)
Lemma notifications_deduplicated_witness :
  sent (trace_of (while_true show_value show_exn cfg [wB; wB] started))
  = [NO_NEW_STATUS]
  /\ length
       (sent (trace_of (while_true show_value show_exn cfg
                          [wA; wB; wB; wD; wD] started)))
     = 3%nat.
Proof.
  destruct (notifications_deduplicated show_value show_exn cfg started wB wB
              [wA; wB; wB; wD; wD]
              delivering_errors_only delivering_errors_only eq_refl)
    as [(Hpair & _ & _) (Hrun & _ & _ & _)].
  { repeat constructor; exact delivering_errors_only. }
  split.
  - exact Hpair.
  - rewrite Hrun. reflexivity.
Defined.

(** C3, counterexample: after a first iteration of scenario B the loop is
    in [after_B]; the next two iterations both produce "No new status" and
    nothing is sent across the pair.  And right after startup the last
    send was the startup notification while [prev_msg] is empty. *)
Lemma identical_pair_sends_nothing :
  snd (main show_value show_exn cfg 1700000000123456789 delivering [wB])
  = Polling after_B
  /\ produced show_value show_exn cfg wB after_B = NO_NEW_STATUS
  /\ produced show_value show_exn cfg wB
       (state_of (iteration show_value show_exn cfg wB after_B))
     = NO_NEW_STATUS
  /\ sent (trace_of (while_true show_value show_exn cfg [wB; wB] after_B))
     = []
  /\ sent (fst (main show_value show_exn cfg 1700000000123456789
                  delivering []))
     = [START_MESSAGE]
  /\ snd (main show_value show_exn cfg 1700000000123456789 delivering [])
     = Polling started
  /\ prev_msg started <> START_MESSAGE.
Proof.
  repeat split; try reflexivity. discriminate.
Qed.

(** Scenario A, then any iteration: the cursor is 1000 and the next
    request asks from 1000. *)
Lemma cursor_follows_current_date_witness :
  load (state_of (iteration show_value show_exn cfg wA started)) = VInt 1000
  /\ requested
       (trace_of (iteration show_value show_exn cfg wB
                    (state_of (iteration show_value show_exn cfg wA started))))
     = [VInt 1000].
Proof.
  destruct (cursor_follows_current_date show_value show_exn cfg started wA wB
              response_A eq_refl)
    as (Hload & Hreq & _).
  { discriminate. }
  split; [exact Hload | exact Hreq].
Defined.


(** C6, counterexample: a client that raises something else than a
    TelegramError makes send_message raise it. *)
Lemma send_message_can_raise :
  result_of (send_message show_exn cfg broken NO_NEW_STATUS tt)
  = Raise (OtherError "RuntimeError" "client failure").
Proof.
  reflexivity.
Qed.

(** Scenario D: the failure is notified once and the loop goes on. *)
Lemma errors_do_not_stop_the_loop_witness :
  result_of (iteration show_value show_exn cfg wD after_B) = Return tt
  /\ sent (trace_of (iteration show_value show_exn cfg wD after_B))
     = [FAILURE ++ show_exn MoreSamples.error_503]
  /\ slept (trace_of (while_true show_value show_exn cfg [wD; wD] after_B))
     = [600; 600].
Proof.
  destruct (errors_do_not_stop_the_loop show_value show_exn cfg after_B wD
              MoreSamples.error_503 [wD; wD] delivering_errors_only eq_refl)
    as ((Hgoes & _ & Hsent & _) & _ & (_ & Hslept)).
  { repeat constructor; exact delivering_errors_only. }
  split; [exact Hgoes | split; [exact Hsent | exact Hslept]].
Defined.

(** C7, counterexample: scenario D with a client that raises a
    RuntimeError.  The error of the fetch is caught, but the exception of
    the client, raised while the diagnostic is sent, leaves the handler:
    the iteration sleeps and ends with it, the loop runs none of the
    iterations that follow, and main ends with that exception. *)
Lemma fetch_error_can_stop_the_loop :
  result_of (next_message show_value cfg MoreSamples.wD_broken after_B)
  = Raise MoreSamples.error_503
  /\ result_of (iteration show_value show_exn cfg MoreSamples.wD_broken
                  after_B)
     = Raise (OtherError "RuntimeError" "client failure")
  /\ slept (trace_of (while_true show_value show_exn cfg
                        [MoreSamples.wD_broken; wB; wB] after_B))
     = [600]
  /\ length (requested (trace_of (while_true show_value show_exn cfg
                                    [MoreSamples.wD_broken; wB; wB] after_B)))
     = 1%nat
  /\ snd (main show_value show_exn cfg 1700000000123456789 delivering
             [wB; MoreSamples.wD_broken; wB])
     = Crashed (OtherError "RuntimeError" "client failure").
Proof.
  repeat split; reflexivity.
Qed.

(** A cursor of 0 and of None: the request carries the nanosecond
    clock. *)
Lemma falsy_cursor_replaced_witness :
  requested (trace_of (get_api_answer cfg wA (VInt 0) tt))
  = [VInt 1700000000123456789]
  /\ requested (trace_of (get_api_answer cfg wA VNone tt))
     = [VInt 1700000000123456789]
  /\ int_time (now_fetch wA) = 1700000000.
Proof.
  destruct (falsy_cursor_replaced cfg wA (VInt 0) tt eq_refl eq_refl)
    as (H0 & _).
  destruct (falsy_cursor_replaced cfg wA VNone tt eq_refl eq_refl)
    as (Hnone & _).
  split; [exact H0 | split; [exact Hnone | reflexivity]].
Defined.

(** Scenario E with the bot token set to the empty string. *)
Lemma empty_credential_is_missing_witness :
  main show_value show_exn cfg_empty_token 1700000000123456789 delivering
    [wA]
  = (NO_STARTUP, Exited NO_TOKEN).
Proof.
  destruct (empty_credential_is_missing show_value show_exn cfg_empty_token
              1700000000123456789 delivering [wA])
    as (_ & _ & Hmain & _).
  { right. left. reflexivity. }
  exact Hmain.
Defined.

(** ** The further properties on the sample data *)

Import MoreSamples.

(** Two homeworks in the response: the message is about the first. *)
Lemma message_from_first_homework_witness :
  result_of (next_message show_value cfg w_two started)
  = parse_status show_value (VDict hw1).
Proof.
  exact (message_from_first_homework show_value cfg w_two started
           response_two [VDict hw1; VDict hw2] eq_refl eq_refl).
Defined.

(** A JSON array as response: the AttributeError of [.get]. *)
Lemma non_dict_response_fails_at_get_witness :
  result_of (next_message show_value cfg w_array started)
  = Raise (AttributeError "'list' object has no attribute 'get'").
Proof.
  destruct (non_dict_response_fails_at_get show_value show_exn cfg w_array
              started (VList []) eq_refl eq_refl) as (H & _).
  exact H.
Defined.

(** Scenario D: the cursor stays at 1000. *)
Lemma failed_fetch_keeps_cursor_witness :
  load (state_of (iteration show_value show_exn cfg wD after_B)) = VInt 1000.
Proof.
  destruct (failed_fetch_keeps_cursor show_value show_exn cfg wD after_B
              error_503 eq_refl) as (H & _).
  exact H.
Defined.

(** Scenario C: the response lacks [homeworks], the cursor moves to 1000
    all the same. *)
Lemma failure_after_fetch_moves_cursor_witness :
  load (state_of (iteration show_value show_exn cfg wC started)) = VInt 1000.
Proof.
  destruct (failure_after_fetch_moves_cursor show_value show_exn cfg wC
              started [("current_date", VInt 1000)]
              (TypeError NO_HOMEWORKS_KEY) eq_refl eq_refl) as (H & _).
  exact H.
Defined.

(** Scenario D with the broken client: the loop ends in the first of
    three iterations. *)
Lemma client_failure_in_handler_stops_loop_witness :
  result_of (while_true show_value show_exn cfg [wD_broken; wB; wB] after_B)
  = Raise (OtherError "RuntimeError" "client failure")
  /\ slept (trace_of (while_true show_value show_exn cfg
                        [wD_broken; wB; wB] after_B))
     = [600].
Proof.
  destruct (client_failure_in_handler_stops_loop show_value show_exn cfg
              wD_broken after_B error_503
              (OtherError "RuntimeError" "client failure") [wB; wB]
              eq_refl eq_refl eq_refl eq_refl)
    as (Hr & _ & Hs & Hloop).
  rewrite Hloop. split; [exact Hr | exact Hs].
Defined.

(** Scenario B with the flaky client: two texts are sent, and the
    diagnostic is what the loop remembers; in the next iteration the
    status message is handed over again and the diagnostic, which now
    equals [prev_msg], is not. *)
Lemma unsent_status_is_reported_witness :
  sent (trace_of (iteration show_value show_exn cfg wB_flaky started))
  = [NO_NEW_STATUS; FAILURE ++ "client failure"]
  /\ prev_msg (state_of (iteration show_value show_exn cfg wB_flaky started))
     = FAILURE ++ "client failure"
  /\ sent (trace_of (iteration show_value show_exn cfg wB_flaky
                        (state_of (iteration show_value show_exn cfg wB_flaky
                                     started))))
     = [NO_NEW_STATUS].
Proof.
  destruct (unsent_status_is_reported show_value show_exn cfg wB_flaky
              started NO_NEW_STATUS
              (OtherError "RuntimeError" "client failure")
              eq_refl eq_refl eq_refl eq_refl)
    as (_ & _ & Hsent & Hprev).
  { intros e' H. discriminate H. }
  destruct (unsent_status_is_reported show_value show_exn cfg wB_flaky
              (state_of (iteration show_value show_exn cfg wB_flaky started))
              NO_NEW_STATUS
              (OtherError "RuntimeError" "client failure")
              eq_refl eq_refl eq_refl eq_refl)
    as (_ & _ & Hsent' & _).
  { intros e' H. discriminate H. }
  split; [exact Hsent | split; [exact Hprev | exact Hsent']].
Defined.

(** Scenario B, then scenario D: the failure is notified. *)
Lemma change_of_outcome_notifies_witness :
  sent (trace_of (iteration show_value show_exn cfg wD
                    (state_of (iteration show_value show_exn cfg wB started))))
  = [FAILURE ++ show_exn error_503].
Proof.
  exact (change_of_outcome_notifies show_value show_exn cfg started wB wD
           delivering_errors_only delivering_errors_only).
Defined.

(** Startup and scenario B. *)
Lemma first_iteration_notifies_witness :
  sent (fst (main show_value show_exn cfg 1700000000123456789 delivering
               [wB]))
  = [START_MESSAGE; NO_NEW_STATUS].
Proof.
  exact (first_iteration_notifies show_value show_exn cfg
           1700000000123456789 delivering wB eq_refl
           delivering_errors_only delivering_errors_only).
Defined.

Lemma first_request_from_startup_time_witness :
  hd_error (requested (fst (main show_value show_exn cfg 1700000000123456789
                              delivering [wA; wB])))
  = Some (VInt 1700000000).
Proof.
  apply (first_request_from_startup_time show_value show_exn cfg
           1700000000123456789 delivering wA [wB] eq_refl
           delivering_errors_only).
  discriminate.
Defined.

(** A status that is a list. *)
Lemma parse_status_unhashable_status_witness :
  parse_status show_value (VDict hw_list_status)
  = Raise (TypeError "unhashable type: 'list'").
Proof.
  exact (parse_status_unhashable_status show_value hw_list_status
           (VList [VStr "approved"]) eq_refl eq_refl eq_refl).
Defined.
